(** * iModel.js fragments: the test session helper and the message-center
      status field

    A shallow embedding of [IModelSession] (the helper that resolves a
    project and an iModel and opens a remote briefcase connection) and of
    the React component [MessageCenterField], followed by the properties
    the specification states about them.

    Conventions of the embedding.
    - A value of TypeScript type [string | undefined] is an [option string];
      a template literal renders [undefined] as the text "undefined".
    - An [async] method is a state transformer that ends in a completion:
      a normal value or a thrown error.  State changes made before a throw
      are kept, as in JavaScript.
    - Code outside the given sources (the registry and hub clients, the
      configuration store, the remote connection, the UI framework helpers)
      is a record of functions the embedding is parameterised by.  A remote
      answer may depend on everything that happened before the call, so
      each of those functions receives the trace of earlier events.
    - Calls run to completion one after the other; several pending calls
      interleaving at their [await] points are outside the embedding. *)

From Stdlib Require Import ZArith Lia DecimalNat DecimalString.
From stdpp Require Import base option list strings gmap.

Open Scope string_scope.
Open Scope list_scope.

(** ** JavaScript values and completions *)

(** The text a template literal produces for a [string | undefined]. *)
Definition render (v : option string) : string :=
  match v with
  | Some s => s
  | None => "undefined"
  end.

(** An error object: the constructor name and the [message] property. *)
Record JsError : Type := mkJsError {
  error_name : string;
  message : string;
}.

(** [new Error(msg)] *)
Definition Error (msg : string) : JsError := mkJsError "Error" msg.

(** How an awaited promise settles. *)
Inductive Settled (A : Type) : Type :=
| Resolved (a : A)
| Rejected (e : JsError).
Arguments Resolved {A} a.
Arguments Rejected {A} e.

(** How a function body completes. *)
Inductive Completion (A : Type) : Type :=
| Normal (a : A)
| Thrown (e : JsError).
Arguments Normal {A} a.
Arguments Thrown {A} e.

(** A computation over a state [St]. *)
Definition Async (St A : Type) : Type := St -> Completion A * St.

Definition ret {St A} (a : A) : Async St A := fun s => (Normal a, s).

Definition throw {St A} (e : JsError) : Async St A := fun s => (Thrown e, s).

Definition bind {St A B} (m : Async St A) (k : A -> Async St B) : Async St B :=
  fun s =>
    match m s with
    | (Normal a, s') => k a s'
    | (Thrown e, s') => (Thrown e, s')
    end.

(** [try { m } catch (e) { h e }] *)
Definition try_catch {St A} (m : Async St A) (h : JsError -> Async St A)
  : Async St A :=
  fun s =>
    match m s with
    | (Normal a, s') => (Normal a, s')
    | (Thrown e, s') => h e s'
    end.

Notation "x <- m ;; k" := (bind m (fun x => k))
  (at level 100, m at next level, right associativity).
Notation "m ;;; k" := (bind m (fun _ => k))
  (at level 100, right associativity).

(** ** The world of the session helper *)

(** A connection is an object reference. *)
Definition IModelConnection : Type := nat.

Module Project.
Record t : Type := mk { wsgId : string; name : option string }.
End Project.

Module HubIModel.
Record t : Type := mk { wsgId : string; name : option string }.
End HubIModel.

(** Everything observable the helper does, in order. *)
Inductive Event : Type :=
| ConsoleLog (line : string)
| ConfigGet (varName : string)
| GetProject (select filter : string)
| IModelsGet (contextId byName : option string)
| RemoteOpen (contextId iModelId : option string).

Definition Trace : Type := list Event.

(** The services the helper calls.  [iModels_get] may answer [undefined]
    (the helper tests for it), hence the [option]. *)
Record Services : Type := mkServices {
  config_get : Trace -> string -> Settled string;
  getProject : Trace -> string -> string -> Settled Project.t;
  iModels_get : Trace -> option string -> option string
                -> Settled (option (list HubIModel.t));
  remote_open : Trace -> option string -> option string
                -> Settled IModelConnection;
}.

(** [await call]: the call is recorded, and its answer is the completion. *)
Definition await {A} (ev : Event) (answer : Trace -> Settled A)
  : Async Trace A :=
  fun t =>
    match answer t with
    | Resolved a => (Normal a, t ++ [ev])
    | Rejected e => (Thrown e, t ++ [ev])
    end.

Definition console_log (line : string) : Async Trace unit :=
  fun t => (Normal tt, t ++ [ConsoleLog line]).

(** chai: [expect(v).to.exist] *)
Definition expect_to_exist {St A} (v : option A) : Async St unit :=
  match v with
  | Some _ => ret tt
  | None => throw (mkJsError "AssertionError" "expected undefined to exist")
  end.

(** ** common/Settings: IModelData *)

Module IModelData.
Record t : Type := mk {
  useName : bool;
  id : option string;
  name : option string;
  useProjectName : bool;
  projectId : option string;
  projectName : option string;
  changeSetId : option string;
}.
End IModelData.

(** ** IModelSession *)

Module IModelSession.

Record t : Type := mk {
  contextId : option string;
  iModelId : option string;
  _iModel : option IModelConnection;
}.

(** [private constructor(contextId, imodelId)] *)
Definition new (contextId imodelId : option string) : t :=
  {| contextId := contextId; iModelId := imodelId; _iModel := None |}.

Definition project_filter (iModelData : IModelData.t) : string :=
  "Name+eq+'" +:+ render (IModelData.projectName iModelData) +:+ "'".

Definition missing_iModel_message (iModelData : IModelData.t)
    (contextId : option string) : string :=
  "The iModel " +:+ render (IModelData.name iModelData)
    +:+ " does not exist in project " +:+ render contextId +:+ ".".

Definition using_iModel_line (iModelData : IModelData.t) : string :=
  "Using iModel { name:" +:+ render (IModelData.name iModelData)
    +:+ ", id:" +:+ render (IModelData.id iModelData)
    +:+ ", projectId:" +:+ render (IModelData.projectId iModelData)
    +:+ ", changesetId:" +:+ render (IModelData.changeSetId iModelData)
    +:+ " }".

(** [public static async create(requestContext, iModelData)] *)
Definition create (sv : Services) (iModelData : IModelData.t)
  : Async Trace t :=
  contextId <-
    (if IModelData.useProjectName iModelData then
       project <- await (GetProject "*" (project_filter iModelData))
                    (fun tr => getProject sv tr "*" (project_filter iModelData)) ;;
       ret (Some (Project.wsgId project))
     else ret (IModelData.projectId iModelData)) ;;
  imodelId <-
    (if IModelData.useName iModelData then
       imodels <- await (IModelsGet contextId (IModelData.name iModelData))
                    (fun tr => iModels_get sv tr contextId
                                 (IModelData.name iModelData)) ;;
       match imodels with
       | None | Some [] =>
           throw (Error (missing_iModel_message iModelData contextId))
       | Some (first :: _) => ret (Some (HubIModel.wsgId first))
       end
     else ret (IModelData.id iModelData)) ;;
  console_log (using_iModel_line iModelData) ;;;
  ret (new contextId imodelId).

(** The state a method runs in: the receiver and the world. *)
Record Obj : Type := mkObj { this : t; world : Trace }.

Definition liftW {A} (m : Async Trace A) : Async Obj A :=
  fun o =>
    let (r, tr) := m (world o) in
    (r, {| this := this o; world := tr |}).

Definition get_contextId : Async Obj (option string) :=
  fun o => (Normal (contextId (this o)), o).
Definition get_iModelId : Async Obj (option string) :=
  fun o => (Normal (iModelId (this o)), o).
Definition get_iModel : Async Obj (option IModelConnection) :=
  fun o => (Normal (_iModel (this o)), o).
(** [this._iModel = v] *)
Definition set_iModel (v : option IModelConnection) : Async Obj unit :=
  fun o =>
    (Normal tt,
     {| this := {| contextId := contextId (this o);
                   iModelId := iModelId (this o);
                   _iModel := v |};
        world := world o |}).

Definition region_key : string := "imjs_buddi_resolve_url_using_region".
Definition open_failure_prefix : string :=
  "Failed to open test iModel. Error: ".

(** [public async open()] *)
Definition open (sv : Services) : Async Obj (option IModelConnection) :=
  try_catch
    (env <- liftW (await (ConfigGet region_key)
                     (fun tr => config_get sv tr region_key)) ;;
     liftW (console_log ("Environment: " +:+ env)) ;;;
     ctx <- get_contextId ;;
     mid <- get_iModelId ;;
     conn <- liftW (await (RemoteOpen ctx mid)
                      (fun tr => remote_open sv tr ctx mid)) ;;
     set_iModel (Some conn) ;;;
     v <- get_iModel ;;
     expect_to_exist v)
    (fun e => throw (Error (open_failure_prefix +:+ message e))) ;;;
  get_iModel.

(** [public async getConnection()] *)
Definition getConnection (sv : Services)
  : Async Obj (option IModelConnection) :=
  v <- get_iModel ;;
  match v with
  | None => open sv
  | Some _ => ret v
  end.

(** [n] calls of [getConnection] one after the other: the completions,
    oldest first, and the final state. *)
Fixpoint getConnection_times (sv : Services) (n : nat) (o : Obj)
  : list (Completion (option IModelConnection)) * Obj :=
  match n with
  | 0 => ([], o)
  | S k =>
      let (r, o') := getConnection sv o in
      let (rs, o'') := getConnection_times sv k o' in
      (r :: rs, o'')
  end.

End IModelSession.

(** The number of remote opens recorded in a trace. *)
Definition is_remote_open (ev : Event) : bool :=
  match ev with
  | RemoteOpen _ _ => true
  | _ => false
  end.

Definition remote_opens (tr : Trace) : nat :=
  length (filter (fun ev => is_remote_open ev = true) tr).

(** ** The message center: data *)

(** [NotifyMessageDetails]: the fields the status field reads.  The
    priority is a member of the numeric enum [OutputMessagePriority]. *)
Record NotifyMessageDetails : Type := mkDetails {
  priority : Z;
  briefMessage : string;
  detailedMessage : option string;
}.

(** What the component uses from the framework: two members of the enum
    [OutputMessagePriority] and [MessageManager.getIconClassName]. *)
Record Framework : Type := mkFramework {
  OutputMessagePriority_Error : Z;
  OutputMessagePriority_Fatal : Z;
  getIconClassName : NotifyMessageDetails -> string;
}.

(** Arrays of messages are objects: the array [MessageManager] owns, and
    the arrays allocated since. *)
Inductive ArrayRef : Type :=
| ManagerArray
| Allocated (n : nat).

(** A listener is a function reference. *)
Definition Listener : Type := nat.

Record World : Type := mkWorld {
  manager_array : list NotifyMessageDetails;
  allocated : list (list NotifyMessageDetails);
  onMessageAddedEvent : list Listener;
}.

Definition read (r : ArrayRef) (w : World) : list NotifyMessageDetails :=
  match r with
  | ManagerArray => manager_array w
  | Allocated n => default [] (allocated w !! n)
  end.

(** [MessageManager.messages]: the getter hands out the manager's array. *)
Definition MessageManager_messages (w : World) : ArrayRef := ManagerArray.

(** [a.slice(0)]: a new array with the elements of [a]. *)
Definition slice0 (r : ArrayRef) (w : World) : ArrayRef * World :=
  (Allocated (length (allocated w)),
   {| manager_array := manager_array w;
      allocated := allocated w ++ [read r w];
      onMessageAddedEvent := onMessageAddedEvent w |}).

(** [a.reverse()]: reverses [a] in place and returns [a]. *)
Definition reverse_in_place (r : ArrayRef) (w : World) : ArrayRef * World :=
  (r,
   match r with
   | ManagerArray =>
       {| manager_array := reverse (manager_array w);
          allocated := allocated w;
          onMessageAddedEvent := onMessageAddedEvent w |}
   | Allocated n =>
       {| manager_array := manager_array w;
          allocated := alter reverse n (allocated w);
          onMessageAddedEvent := onMessageAddedEvent w |}
   end).

(** [a.forEach((x, index) => ...)], the callback acting on a state. *)
Fixpoint forEach_from {A St : Type} (f : A -> nat -> St -> St)
    (l : list A) (index : nat) (s : St) : St :=
  match l with
  | [] => s
  | x :: l' => forEach_from f l' (S index) (f x index s)
  end.

Definition forEach {A St : Type} (l : list A) (f : A -> nat -> St -> St)
    (s : St) : St :=
  forEach_from f l 0 s.

(** [n.toString()] for an array index. *)
Definition toString (n : nat) : string :=
  NilEmpty.string_of_uint (Nat.to_uint n).

(** Modelled from the spec: the event emitter of [MessageManager] (BeEvent)
    is not among the sources; the specification only calls it an event
    emitter with listener registration.  It keeps its listeners in a list:
    adding appends, removing deletes the first entry that is the same
    function reference, raising calls the listeners in order. *)
Definition addListener (l : Listener) (ls : list Listener) : list Listener :=
  ls ++ [l].

Fixpoint removeListener (l : Listener) (ls : list Listener) : list Listener :=
  match ls with
  | [] => []
  | x :: rest => if decide (x = l) then rest else x :: removeListener l rest
  end.

(** React elements of a message row. *)
Inductive Element : Type :=
| MessageSpan (className : option string) (message : string)
| Br.

Record MessageCenterMessage : Type := mkRow {
  key : string;
  icon : string;
  children : list Element;
}.

(** An invocation of a callback received through the props. *)
Inductive Call : Type :=
| Invoke (callback : nat) (openWidget : option string).

(** ** MessageCenterField *)

Module MessageCenterField.

Inductive MessageCenterActiveTab : Type :=
| AllMessages
| Problems.

#[global] Instance MessageCenterActiveTab_eq_dec
  : EqDecision MessageCenterActiveTab.
Proof. solve_decision. Defined.

Record MessageCenterState : Type := mkState {
  activeTab : MessageCenterActiveTab;
  target : option nat;
  messageCount : nat;
}.

(** [StatusFieldProps]: [openWidget] is a [StatusBarFieldId], a string or
    [null]; [onOpenWidget] is a function reference, tested before use. *)
Record MessageCenterFieldProps : Type := mkProps {
  isInFooterMode : bool;
  openWidget : option string;
  onOpenWidget : option nat;
}.

Record t : Type := mk {
  props : MessageCenterFieldProps;
  state : MessageCenterState;
  _className : string;
  _handleMessageAddedEvent : Listener;
}.

(** The constructor and the field initialisers.  [className] is the name
    of the constructing class, [handler] the reference of the arrow
    function created for this instance. *)
Definition new (w : World) (p : MessageCenterFieldProps)
    (className : string) (handler : Listener) : t :=
  {| props := p;
     state := {| activeTab := AllMessages;
                 target := None;
                 messageCount := length (read (MessageManager_messages w) w) |};
     _className := className;
     _handleMessageAddedEvent := handler |}.

(** The argument of [setState]: the fields to replace. *)
Record Partial : Type := mkPartial {
  new_activeTab : option MessageCenterActiveTab;
  new_target : option (option nat);
  new_messageCount : option nat;
}.

Definition setState (p : Partial) (this : t) : t :=
  {| props := props this;
     state := {| activeTab := default (activeTab (state this)) (new_activeTab p);
                 target := default (target (state this)) (new_target p);
                 messageCount :=
                   default (messageCount (state this)) (new_messageCount p) |};
     _className := _className this;
     _handleMessageAddedEvent := _handleMessageAddedEvent this |}.

Definition componentDidMount (this : t) (w : World) : World :=
  {| manager_array := manager_array w;
     allocated := allocated w;
     onMessageAddedEvent :=
       addListener (_handleMessageAddedEvent this) (onMessageAddedEvent w) |}.

Definition componentWillUnmount (this : t) (w : World) : World :=
  {| manager_array := manager_array w;
     allocated := allocated w;
     onMessageAddedEvent :=
       removeListener (_handleMessageAddedEvent this) (onMessageAddedEvent w) |}.

(** The body of the arrow function [_handleMessageAddedEvent]. *)
Definition handleMessageAddedEvent (w : World) (this : t) : t :=
  setState {| new_activeTab := None;
              new_target := None;
              new_messageCount :=
                Some (length (read (MessageManager_messages w) w)) |} this.

Definition _changeActiveTab (tab : MessageCenterActiveTab) (this : t) : t :=
  setState {| new_activeTab := Some tab;
              new_target := None;
              new_messageCount := None |} this.

Definition setOpenWidget (this : t) (openWidget : option string)
  : list Call :=
  match onOpenWidget (props this) with
  | Some callback => [Invoke callback openWidget]
  | None => []
  end.

(** [this.props.openWidget === this._className] *)
Definition isOpen (this : t) : bool :=
  bool_decide (openWidget (props this) = Some (_className this)).

Definition _handleClose (this : t) : list Call :=
  setOpenWidget this None.

Definition _handleMessageIndicatorClick (this : t) : list Call :=
  if isOpen this
  then setOpenWidget this None
  else setOpenWidget this (Some (_className this)).

Definition isProblemStatus (fw : Framework) (priority : Z) : bool :=
  if bool_decide (priority = OutputMessagePriority_Error fw)
     || bool_decide (priority = OutputMessagePriority_Fatal fw)
  then true
  else false.

(** The row built for a message.  An absent or empty detailed message is
    falsy and adds nothing. *)
Definition MessageCenterMessage_of (fw : Framework)
    (details : NotifyMessageDetails) (index : nat) : MessageCenterMessage :=
  {| key := toString index;
     icon := getIconClassName fw details;
     children :=
       MessageSpan None (briefMessage details) ::
       match detailedMessage details with
       | Some d =>
           if bool_decide (d = "") then []
           else [Br; MessageSpan (Some "uicore-text-small") d]
       | None => []
       end |}.

(** The condition under which [getMessages] pushes a row. *)
Definition shown (fw : Framework) (this : t)
    (details : NotifyMessageDetails) : bool :=
  bool_decide (activeTab (state this) = AllMessages)
  || isProblemStatus fw (priority details).

(** The row of the message at [index], if it is shown. *)
Definition row_if_shown (fw : Framework) (this : t) (index : nat)
    (details : NotifyMessageDetails) : option MessageCenterMessage :=
  if shown fw this details
  then Some (MessageCenterMessage_of fw details index)
  else None.

Definition getMessages (fw : Framework) (this : t) (w : World)
  : list MessageCenterMessage * World :=
  let (copy, w1) := slice0 (MessageManager_messages w) w in
  let (messages, w2) := reverse_in_place copy w1 in
  let tabRows : list MessageCenterMessage := [] in
  (forEach (read messages w2)
     (fun details index tabRows =>
        if shown fw this details
        then tabRows ++ [MessageCenterMessage_of fw details index]
        else tabRows)
     tabRows,
   w2).

(** The same without [slice(0)], for comparison: the reversal then acts on
    the manager's own array. *)
Definition getMessages_without_copy (fw : Framework) (this : t) (w : World)
  : list MessageCenterMessage * World :=
  let (messages, w2) := reverse_in_place (MessageManager_messages w) w in
  (forEach (read messages w2)
     (fun details index tabRows =>
        if shown fw this details
        then tabRows ++ [MessageCenterMessage_of fw details index]
        else tabRows)
     [],
   w2).

(** The parent re-renders the field with the widget it was asked to open. *)
Definition with_openWidget (this : t) (w : option string) : t :=
  {| props := {| isInFooterMode := isInFooterMode (props this);
                 openWidget := w;
                 onOpenWidget := onOpenWidget (props this) |};
     state := state this;
     _className := _className this;
     _handleMessageAddedEvent := _handleMessageAddedEvent this |}.

End MessageCenterField.

(** ** The page: the world and the component instances *)

(** The instances are kept by the reference of their listener. *)
Record Page : Type := mkPage {
  page_world : World;
  instances : gmap Listener MessageCenterField.t;
}.

(** Modelled from the spec: raising the event calls every registered
    listener, in order; a listener that belongs to no instance of the
    field leaves the instances alone. *)
Definition raiseEvent (w : World)
    (insts : gmap Listener MessageCenterField.t)
  : gmap Listener MessageCenterField.t :=
  foldl (fun acc l => alter (MessageCenterField.handleMessageAddedEvent w) l acc)
        insts (onMessageAddedEvent w).

(** Modelled from the spec: [MessageManager] is not among the sources.  When
    a message is added the manager updates its array ([update]: a push,
    possibly after dropping old entries) and raises [onMessageAddedEvent]. *)
Definition message_added
    (update : list NotifyMessageDetails -> list NotifyMessageDetails)
    (pg : Page) : Page :=
  let w' := {| manager_array := update (manager_array (page_world pg));
               allocated := allocated (page_world pg);
               onMessageAddedEvent := onMessageAddedEvent (page_world pg) |} in
  {| page_world := w'; instances := raiseEvent w' (instances pg) |}.

Fixpoint messages_added
    (updates : list (list NotifyMessageDetails -> list NotifyMessageDetails))
    (pg : Page) : Page :=
  match updates with
  | [] => pg
  | u :: rest => messages_added rest (message_added u pg)
  end.

(** Mounting a new instance on a page. *)
Definition mount (p : MessageCenterField.MessageCenterFieldProps)
    (className : string) (handler : Listener) (pg : Page) : Page :=
  let this := MessageCenterField.new (page_world pg) p className handler in
  {| page_world := MessageCenterField.componentDidMount this (page_world pg);
     instances := <[handler := this]> (instances pg) |}.


(** What holds of a mounted instance between events: its listener is
    registered and its count is the length of the manager's list. *)
Definition in_sync (h : Listener) (pg : Page) : Prop :=
  h ∈ onMessageAddedEvent (page_world pg)
  /\ exists this,
       instances pg !! h = Some this
       /\ MessageCenterField.messageCount (MessageCenterField.state this)
          = length (read (MessageManager_messages (page_world pg))
                      (page_world pg)).

(** The trace at the moment [open] attempts the connection, [env] being
    the configured region. *)
Definition attempt_trace (o : IModelSession.Obj) (env : string) : Trace :=
  (IModelSession.world o ++ [ConfigGet IModelSession.region_key])
    ++ [ConsoleLog ("Environment: " +:+ env)].

(** The trace at the moment [create] queries the hub for the iModel. *)
Definition query_trace (iModelData : IModelData.t) (tr : Trace) : Trace :=
  if IModelData.useProjectName iModelData
  then tr ++ [GetProject "*" (IModelSession.project_filter iModelData)]
  else tr.

(** The hub query found nothing: [undefined] or an empty list. *)
Definition no_iModel (r : Settled (option (list HubIModel.t))) : Prop :=
  r = Resolved None \/ r = Resolved (Some []).

(** The project id [create] goes on with, once the project is resolved. *)
Definition context_resolved (sv : Services) (iModelData : IModelData.t)
    (tr : Trace) (ctx : option string) : Prop :=
  if IModelData.useProjectName iModelData
  then exists p,
         getProject sv tr "*" (IModelSession.project_filter iModelData)
           = Resolved p
         /\ ctx = Some (Project.wsgId p)
  else ctx = IModelData.projectId iModelData.

(** ** Naming an entity in a message *)

(** [starts_with needle text]: [text] begins with [needle]. *)
Fixpoint starts_with (needle text : string) : bool :=
  match needle, text with
  | EmptyString, _ => true
  | String a needle', String b text' =>
      Ascii.eqb a b && starts_with needle' text'
  | String _ _, EmptyString => false
  end.

(** [mentions needle text]: [needle] occurs in [text]. *)
Fixpoint mentions (needle text : string) : bool :=
  starts_with needle text
  || match text with
     | EmptyString => false
     | String _ rest => mentions needle rest
     end.

(** ** MessageCenterField: the DOM handlers and [render] *)

(** What a mouse event hit: a DOM node, or something that is not a [Node]. *)
Inductive EventTarget : Type :=
| TargetNode (node : nat)
| TargetOther.

(** [props.targetRef]: a callback ref or a ref object. *)
Inductive TargetRef : Type :=
| RefCallback (callback : nat)
| RefObject (ref : nat).

(** What [_handleTargetRef] does to the ref it was given. *)
Inductive RefEffect : Type :=
| CallRef (callback : nat) (target : option nat)
| AssignCurrent (ref : nat) (target : option nat).

(** The members of the instance that [render] hands to its children. *)
Inductive Member : Type :=
| member_indicator
| member_handleMessageIndicatorClick
| member_handleTargetRef
| member_handleClose
| member_handleOutsideClick.

(** [CommonProps] *)
Record CommonProps : Type := mkCommonProps {
  className : option string;
  style : option string;
}.

Module MessageCenterRender.

Import MessageCenterField.

(** [_handleTargetRef].  [targetRef] is [this.props.targetRef]. *)
Definition _handleTargetRef (targetRef : option TargetRef)
    (target : option nat) (this : MessageCenterField.t)
  : list RefEffect * MessageCenterField.t :=
  (match targetRef with
   | Some (RefCallback callback) => [CallRef callback target]
   | Some (RefObject ref) => [AssignCurrent ref target]
   | None => []
   end,
   setState {| new_activeTab := None;
               new_target := Some target;
               new_messageCount := None |} this).

(** [_handleOutsideClick].  [indicator] is [this._indicator.current],
    [contains] is [Node.contains], [target] is [e.target]. *)
Definition _handleOutsideClick (contains : nat -> nat -> bool)
    (indicator : option nat) (this : MessageCenterField.t)
    (target : EventTarget) : list Call :=
  match indicator, target with
  | None, _ => []
  | Some _, TargetOther => []
  | Some node, TargetNode hit =>
      if contains node hit then [] else _handleClose this
  end.

Record MessageCenterElement : Type := mkMessageCenterElement {
  indicatorRef : Member;
  indicator_isInFooterMode : bool;
  label : option string;
  indicator_onClick : Member;
  indicator_targetRef : Member;
  indicator_children : string;
}.

Record DivElement : Type := mkDivElement {
  div_className : option string;
  div_style : option string;
  title : string;
  div_children : MessageCenterElement;
}.

(** A tab; [tab_onClick] is the tab its click passes to [_changeActiveTab]. *)
Record MessageCenterTabElement : Type := mkTabElement {
  isActive : bool;
  tab_onClick : MessageCenterActiveTab;
  tab_children : string;
}.

Record MessageCenterDialogElement : Type := mkDialogElement {
  prompt : string;
  tabs : list MessageCenterTabElement;
  dialog_title : string;
  dialog_children : list MessageCenterMessage;
}.

Record FooterPopupElement : Type := mkFooterPopupElement {
  popup_isOpen : bool;
  onClose : Member;
  onOutsideClick : Member;
  popup_target : option nat;
  popup_children : MessageCenterDialogElement;
}.

Record Fragment : Type := mkFragment {
  footer_div : DivElement;
  footer_popup : FooterPopupElement;
}.

(** [render].  [translate] is [UiFramework.translate]; the field [_title] is
    its value at "messageCenter.messages".  [common] carries the class name
    and style of the props. *)
Definition render (fw : Framework) (translate : string -> string)
    (common : CommonProps) (this : MessageCenterField.t) (w : World)
  : Fragment * World :=
  let _title := translate "messageCenter.messages" in
  let tooltip := toString (messageCount (state this)) +:+ " " +:+ _title in
  let (rows, w') := getMessages fw this w in
  ({| footer_div :=
        {| div_className := className common;
           div_style := style common;
           title := tooltip;
           div_children :=
             {| indicatorRef := member_indicator;
                indicator_isInFooterMode := isInFooterMode (props this);
                label := if isInFooterMode (props this)
                         then Some _title else None;
                indicator_onClick := member_handleMessageIndicatorClick;
                indicator_targetRef := member_handleTargetRef;
                indicator_children := toString (messageCount (state this)) |} |};
      footer_popup :=
        {| popup_isOpen := isOpen this;
           onClose := member_handleClose;
           onOutsideClick := member_handleOutsideClick;
           popup_target := target (state this);
           popup_children :=
             {| prompt := translate "messageCenter.prompt";
                tabs :=
                  [ {| isActive :=
                         bool_decide (activeTab (state this) = AllMessages);
                       tab_onClick := AllMessages;
                       tab_children := translate "messageCenter.all" |};
                    {| isActive :=
                         bool_decide (activeTab (state this) = Problems);
                       tab_onClick := Problems;
                       tab_children := translate "messageCenter.errors" |} ];
                dialog_title := _title;
                dialog_children := rows |} |} |},
   w').

End MessageCenterRender.

(** ** Sample worlds *)

Definition plant_project : Project.t := Project.mk "ctx-1" (Some "Plant").
Definition bridge_iModel : HubIModel.t := HubIModel.mk "im-1" (Some "Bridge").

(** Every service answers. *)
Definition hub_online : Services :=
  {| config_get := fun _ _ => Resolved "0";
     getProject := fun _ _ _ => Resolved plant_project;
     iModels_get := fun _ _ _ => Resolved (Some [bridge_iModel]);
     remote_open := fun _ _ _ => Resolved 7 |}.

(** The connection is refused. *)
Definition hub_offline : Services :=
  {| config_get := fun _ _ => Resolved "0";
     getProject := fun _ _ _ => Resolved plant_project;
     iModels_get := fun _ _ _ => Resolved (Some [bridge_iModel]);
     remote_open := fun _ _ _ => Rejected (Error "connect ECONNREFUSED") |}.

(** The connection is refused once, then accepted: the answer depends on
    the number of attempts made so far. *)
Definition hub_flaky : Services :=
  {| config_get := fun _ _ => Resolved "0";
     getProject := fun _ _ _ => Resolved plant_project;
     iModels_get := fun _ _ _ => Resolved (Some [bridge_iModel]);
     remote_open := fun tr _ _ =>
       match remote_opens tr with
       | 0 => Rejected (Error "connect ECONNREFUSED")
       | S n => Resolved (7 + n)
       end |}.

(** The registry knows no project of the requested name. *)
Definition registry_without_project : Services :=
  {| config_get := fun _ _ => Resolved "0";
     getProject := fun _ _ _ =>
       Rejected (Error "Could not find a project with the specified criteria");
     iModels_get := fun _ _ _ => Resolved (Some [bridge_iModel]);
     remote_open := fun _ _ _ => Resolved 7 |}.

(** The hub cannot be reached. *)
Definition hub_unreachable : Services :=
  {| config_get := fun _ _ => Resolved "0";
     getProject := fun _ _ _ => Resolved plant_project;
     iModels_get := fun _ _ _ => Rejected (Error "getaddrinfo ENOTFOUND");
     remote_open := fun _ _ _ => Rejected (Error "getaddrinfo ENOTFOUND") |}.

(** The hub knows no iModel of the requested name. *)
Definition hub_without_iModel : Services :=
  {| config_get := fun _ _ => Resolved "0";
     getProject := fun _ _ _ => Resolved plant_project;
     iModels_get := fun _ _ _ => Resolved (Some []);
     remote_open := fun _ _ _ => Resolved 7 |}.

Definition data_by_name : IModelData.t :=
  {| IModelData.useName := true;
     IModelData.id := None;
     IModelData.name := Some "Bridge";
     IModelData.useProjectName := true;
     IModelData.projectId := None;
     IModelData.projectName := Some "Plant";
     IModelData.changeSetId := None |}.

Definition data_by_id : IModelData.t :=
  {| IModelData.useName := false;
     IModelData.id := Some "im-9";
     IModelData.name := None;
     IModelData.useProjectName := false;
     IModelData.projectId := Some "ctx-9";
     IModelData.projectName := None;
     IModelData.changeSetId := None |}.

Definition fresh_session : IModelSession.Obj :=
  {| IModelSession.this := IModelSession.new (Some "ctx-9") (Some "im-9");
     IModelSession.world := [] |}.

Definition sample_framework : Framework :=
  {| OutputMessagePriority_Error := 10;
     OutputMessagePriority_Fatal := 17;
     getIconClassName := fun details =>
       if (priority details =? 10)%Z then "icon-status-error" else "icon-info" |}.

Definition saved_message : NotifyMessageDetails :=
  {| priority := 12; briefMessage := "Saved"; detailedMessage := None |}.

Definition failed_message : NotifyMessageDetails :=
  {| priority := 10;
     briefMessage := "Save failed";
     detailedMessage := Some "The disk is full" |}.

Definition sample_world : World :=
  {| manager_array := [saved_message; failed_message];
     allocated := [];
     onMessageAddedEvent := [3] |}.

Definition sample_props : MessageCenterField.MessageCenterFieldProps :=
  {| MessageCenterField.isInFooterMode := true;
     MessageCenterField.openWidget := None;
     MessageCenterField.onOpenWidget := Some 1 |}.

Definition sample_field : MessageCenterField.t :=
  MessageCenterField.new sample_world sample_props "MessageCenterField" 5.

(** An open panel whose props carry no [onOpenWidget]. *)
Definition field_without_callback : MessageCenterField.t :=
  MessageCenterField.new sample_world
    {| MessageCenterField.isInFooterMode := true;
       MessageCenterField.openWidget := Some "MessageCenterField";
       MessageCenterField.onOpenWidget := None |}
    "MessageCenterField" 6.

Definition sample_page : Page :=
  mount sample_props "MessageCenterField" 5
    {| page_world := sample_world; instances := ∅ |}.

(** The sample field in a world with three priorities, newest last. *)
Definition fatal_message : NotifyMessageDetails :=
  {| priority := 17; briefMessage := "Out of memory"; detailedMessage := Some "" |}.

Definition busy_world : World :=
  {| manager_array := [failed_message; saved_message; fatal_message];
     allocated := [[saved_message]];
     onMessageAddedEvent := [5] |}.

Definition busy_field : MessageCenterField.t :=
  MessageCenterField.new busy_world sample_props "MessageCenterField" 5.

Definition sample_translate (key : string) : string :=
  if String.eqb key "messageCenter.messages" then "Message(s):" else key.

Definition sample_common : CommonProps :=
  {| className := Some "footer-field"; style := None |}.

(** In the sample DOM a node contains the nodes whose number is not
    smaller. *)
Definition sample_contains (node hit : nat) : bool := Nat.leb node hit.

(** * Properties of the session helper *)

Lemma remote_opens_app (tr1 tr2 : Trace) :
  remote_opens (tr1 ++ tr2) = remote_opens tr1 + remote_opens tr2.
Proof.
  unfold remote_opens, Trace. rewrite list.filter_app, length_app. reflexivity.
Qed.

Lemma remote_opens_single (ev : Event) :
  remote_opens [ev] = if is_remote_open ev then 1 else 0.
Proof. destruct ev; reflexivity. Qed.

Section Session.

Import IModelSession.

Variable sv : Services.

(** [open], case by case. *)
Lemma open_unfold (o : Obj) :
  open sv o =
  match config_get sv (world o) region_key with
  | Rejected e =>
      (Thrown (Error (open_failure_prefix +:+ message e)),
       {| this := this o; world := world o ++ [ConfigGet region_key] |})
  | Resolved env =>
      match remote_open sv (attempt_trace o env)
              (contextId (this o)) (iModelId (this o)) with
      | Rejected e =>
          (Thrown (Error (open_failure_prefix +:+ message e)),
           {| this := this o;
              world := attempt_trace o env
                         ++ [RemoteOpen (contextId (this o)) (iModelId (this o))] |})
      | Resolved conn =>
          (Normal (Some conn),
           {| this := {| contextId := contextId (this o);
                         iModelId := iModelId (this o);
                         _iModel := Some conn |};
              world := attempt_trace o env
                         ++ [RemoteOpen (contextId (this o)) (iModelId (this o))] |})
      end
  end.
Proof.
  unfold open, try_catch, bind, liftW, await, console_log, attempt_trace.
  destruct o as [s tr]; simpl.
  destruct (config_get sv tr region_key) as [env|e]; simpl; [|reflexivity].
  destruct (remote_open sv _ (contextId s) (iModelId s)) as [conn|e];
    reflexivity.
Qed.

Lemma getConnection_unfold (o : Obj) :
  getConnection sv o =
  match _iModel (this o) with
  | None => open sv o
  | Some conn => (Normal (Some conn), o)
  end.
Proof.
  unfold getConnection, bind, get_iModel, ret.
  destruct (_iModel (this o)); reflexivity.
Qed.

(** A normal completion of [open] leaves its value in the cache. *)
Lemma open_caches (o : Obj) (v : option IModelConnection) :
  (open sv o).1 = Normal v ->
  exists conn, v = Some conn /\ _iModel (this (open sv o).2) = Some conn.
Proof.
  rewrite open_unfold.
  destruct (config_get sv (world o) region_key) as [env|e]; simpl; [|discriminate].
  destruct (remote_open sv _ _ _) as [conn|e]; simpl; [|discriminate].
  intros [= <-]. eauto.
Qed.

(** C2: in every call of [open], when the remote connection attempt fails
    with an error [e], [open] throws an [Error] whose message is "Failed to
    open test iModel. Error: " followed by the message of [e]; when the
    attempt succeeds, [open] throws nothing and returns the opened
    connection, which is then the cached one.  (When reading the configured
    region already fails, no attempt is made and that error is wrapped in
    the same way.) *)
Theorem open_wraps_connection_failure (o : Obj) :
  match config_get sv (world o) region_key with
  | Rejected e0 =>
      world (open sv o).2 = world o ++ [ConfigGet region_key]
      /\ (open sv o).1
         = Thrown (Error ("Failed to open test iModel. Error: " +:+ message e0))
  | Resolved env =>
      world (open sv o).2
      = attempt_trace o env
          ++ [RemoteOpen (contextId (this o)) (iModelId (this o))]
      /\ match remote_open sv (attempt_trace o env)
                 (contextId (this o)) (iModelId (this o)) with
         | Rejected e =>
             (open sv o).1
             = Thrown (Error ("Failed to open test iModel. Error: "
                                +:+ message e))
         | Resolved conn =>
             (open sv o).1 = Normal (Some conn)
             /\ _iModel (this (open sv o).2) = Some conn
         end
  end.
Proof.
  rewrite open_unfold.
  destruct (config_get sv (world o) region_key) as [env|e0]; simpl; [|auto].
  destruct (remote_open sv _ _ _) as [conn|e]; simpl; auto.
Qed.

(** Once a connection is cached, any number of [getConnection] calls return
    it and change nothing. *)
Lemma getConnection_times_cached (n : nat) (o : Obj) (conn : IModelConnection) :
  _iModel (this o) = Some conn ->
  getConnection_times sv n o = (replicate n (Normal (Some conn)), o).
Proof.
  intros Hc. induction n as [|n IH]; simpl; [reflexivity|].
  rewrite getConnection_unfold, Hc, IH. reflexivity.
Qed.

(** C3: the connection is created lazily and memoized (the calls being
    made one after the other).  [getConnection] runs [open] exactly when
    [_iModel] is undefined and otherwise returns the cached connection
    without touching the world, so a call that adds a remote open to the
    trace found the cache empty.  With the cache empty and the region
    readable it makes the remote open, with the identifiers of the session,
    and when that resolves the connection is returned and stored in
    [_iModel].  A successful [open] returns the connection its one remote
    open resolved to and leaves it in [_iModel]; every later
    [getConnection] returns that same connection and the state, trace
    included, stays as [open] left it. *)
Theorem getConnection_lazy_memoized (o : Obj) :
  getConnection sv o
    = match _iModel (this o) with
      | None => open sv o
      | Some conn => (Normal (Some conn), o)
      end
  /\ (remote_opens (world (getConnection sv o).2) <> remote_opens (world o) ->
      _iModel (this o) = None)
  /\ (_iModel (this o) = None ->
      forall env,
        config_get sv (world o) region_key = Resolved env ->
        world (getConnection sv o).2
          = attempt_trace o env
              ++ [RemoteOpen (contextId (this o)) (iModelId (this o))]
        /\ forall conn,
             remote_open sv (attempt_trace o env)
               (contextId (this o)) (iModelId (this o)) = Resolved conn ->
             (getConnection sv o).1 = Normal (Some conn)
             /\ _iModel (this (getConnection sv o).2) = Some conn)
  /\ (forall v, (open sv o).1 = Normal v ->
      (exists conn env,
         v = Some conn
         /\ config_get sv (world o) region_key = Resolved env
         /\ remote_open sv (attempt_trace o env)
              (contextId (this o)) (iModelId (this o)) = Resolved conn
         /\ _iModel (this (open sv o).2) = Some conn
         /\ remote_opens (world (open sv o).2) = S (remote_opens (world o)))
      /\ forall n, getConnection_times sv n (open sv o).2
                   = (replicate n (Normal v), (open sv o).2)).
Proof.
  split; [apply getConnection_unfold|split; [|split]].
  - rewrite getConnection_unfold.
    destruct (_iModel (this o)); simpl; [congruence|reflexivity].
  - intros Hnone env Henv.
    rewrite getConnection_unfold, Hnone, open_unfold, Henv.
    destruct (remote_open sv _ _ _) as [conn|e]; simpl.
    + split; [reflexivity|]. intros conn' [= <-]. auto.
    + split; [reflexivity|]. intros conn' Hconn. discriminate Hconn.
  - intros v Hv. split.
    + revert Hv. rewrite open_unfold.
      destruct (config_get sv (world o) region_key) as [env|e] eqn:Henv;
        simpl; [|discriminate].
      destruct (remote_open sv _ _ _) as [conn|e] eqn:Hconn; simpl;
        [|discriminate].
      intros [= <-]. exists conn, env.
      split; [reflexivity|]. split; [reflexivity|]. split; [exact Hconn|].
      split; [reflexivity|].
      unfold attempt_trace. rewrite !remote_opens_app, !remote_opens_single.
      simpl. lia.
    + intros n. destruct (open_caches o v Hv) as (conn & -> & Hc).
      apply getConnection_times_cached, Hc.
Qed.

(** C10: [open] and [getConnection] leave [contextId] and [iModelId] as
    they were, whether they return or throw. *)
Theorem open_keeps_identifiers (o : Obj) :
  (contextId (this (open sv o).2) = contextId (this o)
   /\ iModelId (this (open sv o).2) = iModelId (this o))
  /\ (contextId (this (getConnection sv o).2) = contextId (this o)
      /\ iModelId (this (getConnection sv o).2) = iModelId (this o)).
Proof.
  assert (Hopen : contextId (this (open sv o).2) = contextId (this o)
                  /\ iModelId (this (open sv o).2) = iModelId (this o)).
  { rewrite open_unfold.
    destruct (config_get sv (world o) region_key) as [env|e]; simpl; [|auto].
    destruct (remote_open sv _ _ _); simpl; auto. }
  split; [exact Hopen|].
  rewrite getConnection_unfold.
  destruct (_iModel (this o)); simpl; auto.
Qed.

(** [create], case by case. *)
Lemma create_unfold (d : IModelData.t) (tr : Trace) :
  create sv d tr =
  let resolved :=
    if IModelData.useProjectName d
    then match getProject sv tr "*" (project_filter d) with
         | Resolved p => Normal (Some (Project.wsgId p))
         | Rejected e => Thrown e
         end
    else Normal (IModelData.projectId d) in
  match resolved with
  | Thrown e => (Thrown e, query_trace d tr)
  | Normal ctx =>
      if IModelData.useName d
      then
        let tr2 := query_trace d tr ++ [IModelsGet ctx (IModelData.name d)] in
        match iModels_get sv (query_trace d tr) ctx (IModelData.name d) with
        | Rejected e => (Thrown e, tr2)
        | Resolved None | Resolved (Some []) =>
            (Thrown (Error (missing_iModel_message d ctx)), tr2)
        | Resolved (Some (first :: _)) =>
            (Normal (new ctx (Some (HubIModel.wsgId first))),
             tr2 ++ [ConsoleLog (using_iModel_line d)])
        end
      else
        (Normal (new ctx (IModelData.id d)),
         query_trace d tr ++ [ConsoleLog (using_iModel_line d)])
  end.
Proof.
  unfold create, bind, await, console_log, ret, throw, query_trace.
  destruct (IModelData.useProjectName d); simpl.
  - destruct (getProject sv tr "*" (project_filter d)) as [p|e]; simpl;
      [|reflexivity].
    destruct (IModelData.useName d); simpl; [|reflexivity].
    destruct (iModels_get sv _ _ _) as [[[|first rest]|]|e]; reflexivity.
  - destruct (IModelData.useName d); simpl; [|reflexivity].
    destruct (iModels_get sv _ _ _) as [[[|first rest]|]|e]; reflexivity.
Qed.

(** C4: a session returned by [create] stores two identifiers.  Its
    [contextId] is [iModelData.projectId] when [useProjectName] is false and
    otherwise the [wsgId] of the project the by-name lookup resolved; its
    [iModelId] is [iModelData.id] when [useName] is false and otherwise the
    [wsgId] of the first iModel the by-name query returned.  No connection
    is cached yet. *)
Theorem create_stores_identifiers (d : IModelData.t) (tr tr' : Trace)
    (s : IModelSession.t) :
  create sv d tr = (Normal s, tr') ->
  (if IModelData.useProjectName d
   then exists p, getProject sv tr "*" (project_filter d) = Resolved p
                  /\ contextId s = Some (Project.wsgId p)
   else contextId s = IModelData.projectId d)
  /\ (if IModelData.useName d
      then exists first rest,
             iModels_get sv (query_trace d tr) (contextId s) (IModelData.name d)
               = Resolved (Some (first :: rest))
             /\ iModelId s = Some (HubIModel.wsgId first)
      else iModelId s = IModelData.id d)
  /\ _iModel s = None.
Proof.
  rewrite create_unfold. unfold query_trace.
  destruct (IModelData.useProjectName d); simpl.
  - destruct (getProject sv tr "*" (project_filter d)) as [p|e]; simpl;
      [|discriminate].
    destruct (IModelData.useName d); simpl.
    + destruct (iModels_get sv _ _ _) as [[[|first rest]|]|e] eqn:Hq;
        try discriminate.
      intros [= <- <-]; simpl. rewrite Hq. eauto 10.
    + intros [= <- <-]; simpl. eauto.
  - destruct (IModelData.useName d); simpl.
    + destruct (iModels_get sv _ _ _) as [[[|first rest]|]|e] eqn:Hq;
        try discriminate.
      intros [= <- <-]; simpl. rewrite Hq. eauto 10.
    + intros [= <- <-]; simpl. auto.
Qed.

Lemma starts_with_app (x rest : string) : starts_with x (x +:+ rest) = true.
Proof.
  induction x as [|a x IH]; simpl; [reflexivity|].
  rewrite Ascii.eqb_refl. exact IH.
Qed.

Lemma mentions_inside (before x after : string) :
  mentions x (before +:+ x +:+ after) = true.
Proof.
  induction before as [|a before IH]; simpl.
  - destruct (x +:+ after) eqn:E; simpl; rewrite <- E, starts_with_app;
      reflexivity.
  - rewrite IH. apply orb_true_r.
Qed.

(** C1, as the code has it: when the project lookup by name fails, [create]
    throws the error that lookup raised, unchanged; when the iModel lookup
    by name returns [undefined] or an empty list, [create] throws an
    [Error] whose message names the iModel and the project.  In neither
    case is a session returned. *)
Theorem create_lookup_failure (d : IModelData.t) (tr : Trace) :
  (IModelData.useProjectName d = true ->
   forall e, getProject sv tr "*" (project_filter d) = Rejected e ->
             (create sv d tr).1 = Thrown e)
  /\ (IModelData.useName d = true ->
      forall ctx,
        context_resolved sv d tr ctx ->
        no_iModel (iModels_get sv (query_trace d tr) ctx (IModelData.name d)) ->
        (create sv d tr).1
        = Thrown (Error ("The iModel " +:+ render (IModelData.name d)
                           +:+ " does not exist in project " +:+ render ctx
                           +:+ "."))
        /\ mentions (render (IModelData.name d))
             (message (Error (missing_iModel_message d ctx))) = true).
Proof.
  split.
  - intros Hp e He. rewrite create_unfold, Hp, He. reflexivity.
  - intros Hn ctx Hctx Hnone. split.
    + rewrite create_unfold. unfold context_resolved, query_trace in *.
      destruct (IModelData.useProjectName d).
      * destruct Hctx as (p & -> & ->). simpl. rewrite Hn.
        destruct Hnone as [-> | ->]; reflexivity.
      * subst ctx. simpl. rewrite Hn.
        destruct Hnone as [-> | ->]; reflexivity.
    + apply mentions_inside.
Qed.

End Session.

(** C2 at work: a refused connection is reported with the wrapped message,
    an accepted one is returned and cached. *)
Lemma open_wraps_connection_failure_witness :
  (IModelSession.open hub_offline fresh_session).1
    = Thrown (Error "Failed to open test iModel. Error: connect ECONNREFUSED")
  /\ ((IModelSession.open hub_online fresh_session).1 = Normal (Some 7)
      /\ IModelSession._iModel
           (IModelSession.this (IModelSession.open hub_online fresh_session).2)
         = Some 7).
Proof.
  split.
  - exact (proj2 (open_wraps_connection_failure hub_offline fresh_session)).
  - exact (proj2 (open_wraps_connection_failure hub_online fresh_session)).
Defined.

(** C3 at work: on a reachable hub the first call opens connection 7 and
    caches it; on the flaky hub the first attempt is refused and caches
    nothing, the second opens connection 7 with one more remote open, and
    three further calls return it again with no further remote open. *)
Lemma getConnection_lazy_memoized_witness :
  let o1 := (IModelSession.getConnection hub_flaky fresh_session).2 in
  let o2 := (IModelSession.open hub_flaky o1).2 in
  IModelSession._iModel (IModelSession.this fresh_session) = None
  /\ ((IModelSession.getConnection hub_online fresh_session).1
        = Normal (Some 7)
      /\ IModelSession._iModel
           (IModelSession.this
              (IModelSession.getConnection hub_online fresh_session).2)
         = Some 7)
  /\ (exists conn env,
        Some 7 = Some conn
        /\ config_get hub_flaky (IModelSession.world o1)
             IModelSession.region_key = Resolved env
        /\ remote_open hub_flaky (attempt_trace o1 env)
             (IModelSession.contextId (IModelSession.this o1))
             (IModelSession.iModelId (IModelSession.this o1)) = Resolved conn
        /\ IModelSession._iModel (IModelSession.this o2) = Some conn
        /\ remote_opens (IModelSession.world o2)
           = S (remote_opens (IModelSession.world o1)))
  /\ IModelSession.getConnection_times hub_flaky 3 o2
     = ([Normal (Some 7); Normal (Some 7); Normal (Some 7)], o2).
Proof.
  split; [|split; [|split]].
  - apply (proj1 (proj2 (getConnection_lazy_memoized hub_flaky fresh_session))).
    vm_compute. lia.
  - exact (proj2 (proj1 (proj2 (proj2 (getConnection_lazy_memoized hub_online
                                         fresh_session)))
                    eq_refl "0" eq_refl)
             7 eq_refl).
  - exact (proj1 (proj2 (proj2 (proj2 (getConnection_lazy_memoized hub_flaky
                           (IModelSession.getConnection hub_flaky
                              fresh_session).2)))
                    (Some 7) eq_refl)).
  - exact (proj2 (proj2 (proj2 (proj2 (getConnection_lazy_memoized hub_flaky
                           (IModelSession.getConnection hub_flaky
                              fresh_session).2)))
                    (Some 7) eq_refl) 3).
Defined.

(** C4 at work: both identifiers resolved by name, and both taken from the
    settings. *)
Lemma create_stores_identifiers_witness :
  (let s := IModelSession.new (Some "ctx-1") (Some "im-1") in
   (exists p, getProject hub_online [] "*"
                (IModelSession.project_filter data_by_name) = Resolved p
              /\ IModelSession.contextId s = Some (Project.wsgId p))
   /\ (exists first rest,
         iModels_get hub_online (query_trace data_by_name [])
           (IModelSession.contextId s) (IModelData.name data_by_name)
           = Resolved (Some (first :: rest))
         /\ IModelSession.iModelId s = Some (HubIModel.wsgId first))
   /\ IModelSession._iModel s = None)
  /\ (let s := (IModelSession.new (Some "ctx-9") (Some "im-9")) in
      IModelSession.contextId s = IModelData.projectId data_by_id
      /\ IModelSession.iModelId s = IModelData.id data_by_id
      /\ IModelSession._iModel s = None).
Proof.
  split.
  - exact (create_stores_identifiers hub_online data_by_name [] _ _ eq_refl).
  - exact (create_stores_identifiers hub_offline data_by_id [] _ _ eq_refl).
Defined.

(** C1 at work: the registry's own error comes through unchanged, and the
    missing iModel is reported by name. *)
Lemma create_lookup_failure_witness :
  (IModelSession.create registry_without_project data_by_name []).1
    = Thrown (Error "Could not find a project with the specified criteria")
  /\ ((IModelSession.create hub_without_iModel data_by_name []).1
      = Thrown (Error "The iModel Bridge does not exist in project ctx-1.")
      /\ mentions "Bridge" "The iModel Bridge does not exist in project ctx-1."
         = true).
Proof.
  split.
  - exact (proj1 (create_lookup_failure registry_without_project data_by_name [])
             eq_refl _ eq_refl).
  - refine (proj2 (create_lookup_failure hub_without_iModel data_by_name [])
              eq_refl (Some "ctx-1") _ _).
    + exists plant_project. split; reflexivity.
    + right. reflexivity.
Defined.

(** C1 as stated fails for the project lookup: with a registry that answers
    the by-name lookup with an error of its own, [create] throws that very
    error, and its message does not name the project that was asked for. *)
Lemma create_project_failure_not_named :
  IModelData.useProjectName data_by_name = true
  /\ (forall p, getProject registry_without_project [] "*"
                  (IModelSession.project_filter data_by_name) <> Resolved p)
  /\ ~ (exists e,
          (IModelSession.create registry_without_project data_by_name []).1
            = Thrown e
          /\ mentions (render (IModelData.projectName data_by_name)) (message e)
             = true).
Proof.
  split; [reflexivity|split].
  - intros p. discriminate.
  - intros (e & He & Hm). vm_compute in He. injection He as <-.
    vm_compute in Hm. discriminate.
Qed.

(** * Properties of the message center *)

Section MessageCenter.

Import MessageCenterField.

Variable fw : Framework.

Lemma toString_inj (n m : nat) : toString n = toString m -> n = m.
Proof.
  unfold toString. intros H.
  apply Unsigned.to_uint_inj.
  assert (Some (Nat.to_uint n) = Some (Nat.to_uint m)) as [= E]; [|exact E].
  rewrite <- !NilEmpty.usu, H. reflexivity.
Qed.

(** The loop of [getMessages] appends the rows of the shown messages, each
    under its index. *)
Lemma forEach_from_rows (this : MessageCenterField.t)
    (l : list NotifyMessageDetails) (index : nat)
    (tabRows : list MessageCenterMessage) :
  forEach_from
    (fun details index tabRows =>
       if shown fw this details
       then tabRows ++ [MessageCenterMessage_of fw details index]
       else tabRows)
    l index tabRows
  = tabRows ++ omap id (imap (fun i => row_if_shown fw this (index + i)) l).
Proof.
  revert index tabRows.
  induction l as [|d l IH]; intros index tabRows; simpl.
  - rewrite app_nil_r. reflexivity.
  - rewrite IH.
    rewrite (imap_ext ((fun i => row_if_shown fw this (index + i)) ∘ S)
               (fun i => row_if_shown fw this (S index + i)) l)
      by (intros i x _; simpl; f_equal; lia).
    rewrite Nat.add_0_r. unfold row_if_shown at 2.
    destruct (shown fw this d); simpl.
    + rewrite <- app_assoc. reflexivity.
    + reflexivity.
Qed.

(** [getMessages] in one equation: the rows of the shown messages of the
    reversed list, and a world that differs by one allocated array. *)
Lemma getMessages_unfold (this : MessageCenterField.t) (w : World) :
  getMessages fw this w
  = (omap id (imap (row_if_shown fw this) (reverse (manager_array w))),
     {| manager_array := manager_array w;
        allocated := allocated w ++ [reverse (manager_array w)];
        onMessageAddedEvent := onMessageAddedEvent w |}).
Proof.
  unfold getMessages, slice0, reverse_in_place, forEach, MessageManager_messages.
  simpl.
  assert (Halter : alter reverse (length (allocated w))
                     (allocated w ++ [manager_array w])
                   = allocated w ++ [reverse (manager_array w)]).
  { rewrite <- (Nat.add_0_r (length (allocated w))) at 1.
    rewrite alter_app_r. reflexivity. }
  rewrite Halter, list_lookup_middle by reflexivity. simpl.
  rewrite forEach_from_rows. reflexivity.
Qed.

Lemma isProblemStatus_spec (p : Z) :
  isProblemStatus fw p = true
  <-> p = OutputMessagePriority_Error fw \/ p = OutputMessagePriority_Fatal fw.
Proof.
  unfold isProblemStatus.
  destruct (bool_decide (p = OutputMessagePriority_Error fw)) eqn:E1;
  destruct (bool_decide (p = OutputMessagePriority_Fatal fw)) eqn:E2; simpl;
    try apply bool_decide_eq_true in E1;
    try apply bool_decide_eq_true in E2;
    try apply bool_decide_eq_false in E1;
    try apply bool_decide_eq_false in E2;
    intuition congruence.
Qed.

Lemma shown_spec (this : MessageCenterField.t) (details : NotifyMessageDetails) :
  shown fw this details = true
  <-> activeTab (state this) = AllMessages
      \/ priority details = OutputMessagePriority_Error fw
      \/ priority details = OutputMessagePriority_Fatal fw.
Proof.
  unfold shown. rewrite orb_true_iff, bool_decide_eq_true, isProblemStatus_spec.
  reflexivity.
Qed.

(** A row of [getMessages] is the row of a shown message of the reversed
    list, under that message's index. *)
Lemma getMessages_row (this : MessageCenterField.t) (w : World)
    (row : MessageCenterMessage) :
  row ∈ (getMessages fw this w).1
  <-> exists i details,
        reverse (manager_array w) !! i = Some details
        /\ shown fw this details = true
        /\ row = MessageCenterMessage_of fw details i.
Proof.
  rewrite getMessages_unfold. simpl. rewrite list_elem_of_omap. split.
  - intros (o & Ho & Hsome). apply elem_of_lookup_imap in Ho.
    destruct Ho as (i & d & -> & Hd). unfold row_if_shown in Hsome. simpl in Hsome.
    destruct (shown fw this d) eqn:Hs; [|discriminate].
    injection Hsome as <-. eauto.
  - intros (i & d & Hd & Hs & ->).
    exists (row_if_shown fw this i d). split.
    + apply elem_of_lookup_imap. eauto.
    + unfold row_if_shown. rewrite Hs. reflexivity.
Qed.

(** C5: the rendered list is filtered by a boolean predicate.  A message of
    [MessageManager.messages] gets a row (the row keyed by its position in
    the reversed copy, which is then the row built from that message) if and
    only if the active tab is AllMessages or its priority is Error or Fatal;
    and [isProblemStatus] is true exactly for those two priorities. *)
Theorem getMessages_filters_by_tab_or_problem (this : MessageCenterField.t)
    (w : World) (j : nat) (details : NotifyMessageDetails) :
  read (MessageManager_messages w) w !! j = Some details ->
  let index := length (read (MessageManager_messages w) w) - S j in
  ((exists row, row ∈ (getMessages fw this w).1 /\ key row = toString index)
   <-> activeTab (state this) = AllMessages
       \/ priority details = OutputMessagePriority_Error fw
       \/ priority details = OutputMessagePriority_Fatal fw)
  /\ (forall row, row ∈ (getMessages fw this w).1 ->
                  key row = toString index ->
                  row = MessageCenterMessage_of fw details index)
  /\ (forall p, isProblemStatus fw p = true
                <-> p = OutputMessagePriority_Error fw
                    \/ p = OutputMessagePriority_Fatal fw).
Proof.
  simpl. intros Hj.
  assert (Hrev : reverse (manager_array w) !! (length (manager_array w) - S j)
                 = Some details).
  { apply reverse_lookup_Some. apply lookup_lt_Some in Hj as Hlt.
    split; [|lia].
    replace (length (manager_array w) - S (length (manager_array w) - S j))
      with j by lia.
    exact Hj. }
  assert (Hkey : forall row, row ∈ (getMessages fw this w).1 ->
            key row = toString (length (manager_array w) - S j) ->
            shown fw this details = true
            /\ row = MessageCenterMessage_of fw details
                       (length (manager_array w) - S j)).
  { intros row Hin Hk. apply getMessages_row in Hin.
    destruct Hin as (i & d & Hd & Hs & ->). simpl in Hk.
    apply toString_inj in Hk. subst i.
    rewrite Hrev in Hd. injection Hd as <-. auto. }
  split; [|split].
  - rewrite <- shown_spec. split.
    + intros (row & Hin & Hk). apply (Hkey row Hin Hk).
    + intros Hs. exists (MessageCenterMessage_of fw details
                           (length (manager_array w) - S j)).
      split; [|reflexivity]. apply getMessages_row. eauto.
  - intros row Hin Hk. apply (Hkey row Hin Hk).
  - apply isProblemStatus_spec.
Qed.

Lemma omap_imap_Some {A B : Type} (g : nat -> A -> B) (l : list A) :
  omap id (imap (fun i x => Some (g i x)) l) = imap g l.
Proof.
  revert g. induction l as [|x l IH]; intros g; simpl; [reflexivity|].
  f_equal. apply (IH (g ∘ S)).
Qed.

(** C8: [getMessages] presents the messages in the reverse order of
    [MessageManager.messages] and works on a copy.  After the call the
    manager's array and every array that existed before are as they were;
    the rows are those of the shown messages of the reversed list; and on
    the AllMessages tab the message at position [j] is shown at position
    [length - 1 - j], so the most recently added message comes first. *)
Theorem getMessages_reverses_a_copy (this : MessageCenterField.t) (w : World) :
  let rows := (getMessages fw this w).1 in
  let w' := (getMessages fw this w).2 in
  let messages := read (MessageManager_messages w) w in
  read (MessageManager_messages w') w' = messages
  /\ (forall n, n < length (allocated w) ->
                read (Allocated n) w' = read (Allocated n) w)
  /\ onMessageAddedEvent w' = onMessageAddedEvent w
  /\ rows = omap id (imap (row_if_shown fw this) (reverse messages))
  /\ (activeTab (state this) = AllMessages ->
      forall j details,
        messages !! j = Some details ->
        rows !! (length messages - S j)
        = Some (MessageCenterMessage_of fw details (length messages - S j))).
Proof.
  rewrite getMessages_unfold. simpl.
  split; [reflexivity|split; [|split; [reflexivity|split; [reflexivity|]]]].
  - intros n Hn. rewrite lookup_app_l by exact Hn. reflexivity.
  - intros Htab j details Hj.
    rewrite (imap_ext (row_if_shown fw this)
               (fun i d => Some (MessageCenterMessage_of fw d i))).
    + rewrite omap_imap_Some, list_lookup_imap.
      apply lookup_lt_Some in Hj as Hlt.
      rewrite reverse_lookup by lia.
      replace (length (manager_array w) - S (length (manager_array w) - S j))
        with j by lia.
      rewrite Hj. reflexivity.
    + intros i d _. unfold row_if_shown, shown.
      rewrite bool_decide_eq_true_2 by exact Htab. reflexivity.
Qed.

End MessageCenter.

(** C5 at work: on the Problems tab the failed save has a row, the
    successful one has none. *)
Lemma getMessages_filters_by_tab_or_problem_witness :
  let problems := MessageCenterField._changeActiveTab
                    MessageCenterField.Problems sample_field in
  ((exists row,
      row ∈ (MessageCenterField.getMessages sample_framework problems
               sample_world).1
      /\ key row = "0")
   <-> MessageCenterField.activeTab (MessageCenterField.state problems)
       = MessageCenterField.AllMessages
       \/ priority failed_message = 10%Z \/ priority failed_message = 17%Z)
  /\ ~ (exists row,
          row ∈ (MessageCenterField.getMessages sample_framework problems
                   sample_world).1
          /\ key row = "1").
Proof.
  intros problems. split.
  - exact (proj1 (getMessages_filters_by_tab_or_problem sample_framework
                    problems sample_world 1 failed_message eq_refl)).
  - intros Hrow.
    apply (proj1 (getMessages_filters_by_tab_or_problem sample_framework
                    problems sample_world 0 saved_message eq_refl)) in Hrow.
    destruct Hrow as [H | [H | H]]; discriminate H.
Defined.

(** C8 at work: on the AllMessages tab the failed save, added last, is the
    first row. *)
Lemma getMessages_reverses_a_copy_witness :
  (MessageCenterField.getMessages sample_framework sample_field sample_world).1
    !! 0
  = Some (MessageCenterField.MessageCenterMessage_of sample_framework
            failed_message 0).
Proof.
  exact (proj2 (proj2 (proj2 (proj2
           (getMessages_reverses_a_copy sample_framework sample_field
              sample_world))))
           eq_refl 1 failed_message eq_refl).
Defined.

(** Without the copy the reversal would reach the manager's array. *)
Example getMessages_without_copy_mutates :
  manager_array
    (MessageCenterField.getMessages_without_copy sample_framework sample_field
       sample_world).2
  = [failed_message; saved_message]
  /\ manager_array
       (MessageCenterField.getMessages sample_framework sample_field
          sample_world).2
     = [saved_message; failed_message].
Proof. split; reflexivity. Qed.

Section Lifecycle.

Import MessageCenterField.

(** C6, as the code has it: a click on the indicator toggles the panel
    through the callback [onOpenWidget] when the props carry one.  The click
    then invokes it with [null] when [openWidget] equals the class name (the
    panel is open) and with the class name otherwise; the panel the parent
    then renders is in the opposite state, and after a second click it is
    back in the state it started in.  Without the callback the click invokes
    nothing. *)
Theorem indicator_click_toggles (this : MessageCenterField.t) :
  (isOpen this = true <-> openWidget (props this) = Some (_className this))
  /\ (onOpenWidget (props this) = None ->
      _handleMessageIndicatorClick this = [])
  /\ (forall callback,
        onOpenWidget (props this) = Some callback ->
        _handleMessageIndicatorClick this
        = [Invoke callback (if isOpen this then None
                            else Some (_className this))]
        /\ exists first second,
             _handleMessageIndicatorClick this = [Invoke callback first]
             /\ isOpen (with_openWidget this first) = negb (isOpen this)
             /\ _handleMessageIndicatorClick (with_openWidget this first)
                = [Invoke callback second]
             /\ isOpen (with_openWidget this second) = isOpen this).
Proof.
  split; [apply bool_decide_eq_true|split].
  - intros Hcb. unfold _handleMessageIndicatorClick, setOpenWidget.
    rewrite Hcb. destruct (isOpen this); reflexivity.
  - intros callback Hcb.
    assert (Hnone : isOpen (with_openWidget this None) = false)
      by reflexivity.
    assert (Hsome : isOpen (with_openWidget this (Some (_className this)))
                    = true)
      by (unfold isOpen; simpl; apply bool_decide_eq_true_2; reflexivity).
    unfold _handleMessageIndicatorClick, setOpenWidget. simpl. rewrite Hcb.
    destruct (isOpen this) eqn:Hopen.
    + split; [reflexivity|].
      exists None, (Some (_className this)).
      rewrite Hnone, Hsome. auto.
    + split; [reflexivity|].
      exists (Some (_className this)), None.
      rewrite Hnone, Hsome. auto.
Qed.

Lemma handleMessageAddedEvent_twice (w : World) (this : MessageCenterField.t) :
  handleMessageAddedEvent w (handleMessageAddedEvent w this)
  = handleMessageAddedEvent w this.
Proof. reflexivity. Qed.

(** Raising an event calls the handler of every registered instance, and of
    no other. *)
Lemma foldl_alter_lookup (f : MessageCenterField.t -> MessageCenterField.t)
    (ls : list Listener) (insts : gmap Listener MessageCenterField.t)
    (h : Listener) :
  (forall x, f (f x) = f x) ->
  foldl (fun acc l => alter f l acc) insts ls !! h
  = (if decide (h ∈ ls) then f else id) <$> insts !! h.
Proof.
  intros Hf. revert insts.
  induction ls as [|a ls IH]; intros insts; simpl.
  - destruct (decide (h ∈ [])) as [Hin|_];
      [exfalso; exact (not_elem_of_nil h Hin)|].
    destruct (insts !! h); reflexivity.
  - rewrite IH. destruct (decide (a = h)) as [->|Hne].
    + rewrite lookup_alter_eq.
      destruct (decide (h ∈ h :: ls)) as [_|Hnin];
        [|exfalso; apply Hnin, elem_of_cons; left; reflexivity].
      destruct (insts !! h) as [x|]; simpl;
        destruct (decide (h ∈ ls)); simpl; rewrite ?Hf; reflexivity.
    + rewrite lookup_alter_ne by exact Hne.
      destruct (decide (h ∈ ls)) as [Hin|Hnin];
        destruct (decide (h ∈ a :: ls)) as [Hin'|Hnin'];
        try reflexivity; exfalso.
      * apply Hnin', elem_of_cons. right. exact Hin.
      * apply elem_of_cons in Hin' as [Heq|Hin']; [congruence|exact (Hnin Hin')].
Qed.

Lemma raiseEvent_registered (w : World)
    (insts : gmap Listener MessageCenterField.t) (h : Listener)
    (this : MessageCenterField.t) :
  insts !! h = Some this ->
  h ∈ onMessageAddedEvent w ->
  raiseEvent w insts !! h = Some (handleMessageAddedEvent w this).
Proof.
  intros Hthis Hin. unfold raiseEvent.
  rewrite foldl_alter_lookup by apply handleMessageAddedEvent_twice.
  rewrite decide_True by exact Hin. rewrite Hthis. reflexivity.
Qed.

Lemma message_added_in_sync
    (update : list NotifyMessageDetails -> list NotifyMessageDetails)
    (h : Listener) (pg : Page) (this : MessageCenterField.t) :
  instances pg !! h = Some this ->
  h ∈ onMessageAddedEvent (page_world pg) ->
  in_sync h (message_added update pg).
Proof.
  intros Hthis Hin. unfold in_sync, message_added. simpl.
  split; [exact Hin|].
  eexists. split.
  - apply raiseEvent_registered; [exact Hthis|exact Hin].
  - reflexivity.
Qed.

Lemma messages_added_in_sync
    (updates : list (list NotifyMessageDetails -> list NotifyMessageDetails))
    (h : Listener) (pg : Page) :
  in_sync h pg -> in_sync h (messages_added updates pg).
Proof.
  revert pg. induction updates as [|u updates IH]; intros pg Hsync; simpl.
  - exact Hsync.
  - apply IH. destruct Hsync as (Hin & this & Hthis & _).
    apply (message_added_in_sync u h pg this Hthis Hin).
Qed.

Lemma mount_in_sync (p : MessageCenterFieldProps) (className : string)
    (h : Listener) (pg : Page) :
  in_sync h (mount p className h pg).
Proof.
  unfold in_sync, mount, componentDidMount, addListener. simpl. split.
  - apply elem_of_app. right. apply list_elem_of_singleton. reflexivity.
  - eexists. split; [apply lookup_insert_eq|reflexivity].
Qed.

(** C7: [messageCount] follows the message list.  The state starts with
    the length of [MessageManager.messages]; every message-added event
    delivered to a mounted instance (one whose listener is registered)
    leaves [messageCount] equal to the length of the list as it then is;
    hence from the mount on, after any sequence of such events, the two
    agree. *)
Theorem messageCount_follows_messages :
  (forall w p className handler,
     messageCount (state (new w p className handler))
     = length (read (MessageManager_messages w) w))
  /\ (forall update pg handler this,
        instances pg !! handler = Some this ->
        handler ∈ onMessageAddedEvent (page_world pg) ->
        let pg' := message_added update pg in
        handler ∈ onMessageAddedEvent (page_world pg')
        /\ exists this',
             instances pg' !! handler = Some this'
             /\ messageCount (state this')
                = length (read (MessageManager_messages (page_world pg'))
                            (page_world pg')))
  /\ (forall p className handler pg updates,
        let pg' := messages_added updates (mount p className handler pg) in
        exists this',
          instances pg' !! handler = Some this'
          /\ messageCount (state this')
             = length (read (MessageManager_messages (page_world pg'))
                         (page_world pg'))).
Proof.
  split; [reflexivity|split].
  - intros update pg handler this Hthis Hin.
    exact (message_added_in_sync update handler pg this Hthis Hin).
  - intros p className handler pg updates.
    exact (proj2 (messages_added_in_sync updates handler _
                    (mount_in_sync p className handler pg))).
Qed.

Lemma removeListener_added (l : Listener) (ls : list Listener) :
  removeListener l (addListener l ls) ≡ₚ ls.
Proof.
  unfold addListener. induction ls as [|x ls IH]; simpl.
  - rewrite decide_True by reflexivity. reflexivity.
  - destruct (decide (x = l)) as [->|Hne].
    + symmetry. apply Permutation_cons_append.
    + rewrite IH. reflexivity.
Qed.

Lemma removeListener_added_fresh (l : Listener) (ls : list Listener) :
  l ∉ ls -> removeListener l (addListener l ls) = ls.
Proof.
  unfold addListener. induction ls as [|x ls IH]; intros Hfresh; simpl.
  - rewrite decide_True by reflexivity. reflexivity.
  - apply not_elem_of_cons in Hfresh as [Hne Hfresh].
    rewrite decide_False by congruence. rewrite IH by exact Hfresh.
    reflexivity.
Qed.

Lemma setState_many_keeps_handler (changes : list Partial)
    (this : MessageCenterField.t) :
  _handleMessageAddedEvent (foldr setState this changes)
  = _handleMessageAddedEvent this.
Proof.
  induction changes as [|c changes IH]; simpl; [reflexivity|exact IH].
Qed.

(** C9: the listener removed on unmount is the one added on mount.  The
    instance keeps the reference of its handler through every state change,
    so unmounting after mounting leaves the listeners of
    [onMessageAddedEvent] as they were: the same listeners, each as often
    as before, and, when the handler was not registered before the mount
    (each instance creates its own), the very same world. *)
Theorem mount_unmount_restores_listeners (this : MessageCenterField.t)
    (w : World) (changes : list Partial) :
  let later := foldr setState this changes in
  _handleMessageAddedEvent later = _handleMessageAddedEvent this
  /\ onMessageAddedEvent (componentWillUnmount later (componentDidMount this w))
     ≡ₚ onMessageAddedEvent w
  /\ (_handleMessageAddedEvent this ∉ onMessageAddedEvent w ->
      componentWillUnmount later (componentDidMount this w) = w).
Proof.
  simpl. split; [apply setState_many_keeps_handler|].
  unfold componentWillUnmount, componentDidMount. simpl.
  rewrite setState_many_keeps_handler. split.
  - apply removeListener_added.
  - intros Hfresh. rewrite removeListener_added_fresh by exact Hfresh.
    destruct w; reflexivity.
Qed.

End Lifecycle.

(** C6 at work: the closed panel is asked to open, and after a second click
    it is asked to close again; a field without the callback asks nothing. *)
Lemma indicator_click_toggles_witness :
  MessageCenterField._handleMessageIndicatorClick sample_field
    = [Invoke 1 (Some "MessageCenterField")]
  /\ MessageCenterField._handleMessageIndicatorClick
       (MessageCenterField.with_openWidget sample_field
          (Some "MessageCenterField"))
     = [Invoke 1 None]
  /\ MessageCenterField._handleMessageIndicatorClick field_without_callback
     = [].
Proof.
  split; [|split].
  - exact (proj1 (proj2 (proj2 (indicator_click_toggles sample_field))
                    1 eq_refl)).
  - exact (proj1 (proj2 (proj2 (indicator_click_toggles
                                  (MessageCenterField.with_openWidget
                                     sample_field
                                     (Some "MessageCenterField"))))
                    1 eq_refl)).
  - exact (proj1 (proj2 (indicator_click_toggles field_without_callback))
             eq_refl).
Defined.

(** C6 as stated fails when the props carry no callback: the panel is open,
    the indicator is clicked, and nothing is invoked, with [null] or
    otherwise. *)
Lemma indicator_click_without_callback :
  MessageCenterField.openWidget (MessageCenterField.props field_without_callback)
    = Some (MessageCenterField._className field_without_callback)
  /\ forall callback arg,
       Invoke callback arg
       ∉ MessageCenterField._handleMessageIndicatorClick field_without_callback.
Proof.
  split; [reflexivity|].
  intros callback arg Hin. exact (not_elem_of_nil _ Hin).
Qed.

(** C7 at work: a third message arrives on the sample page and the mounted
    field counts three. *)
Lemma messageCount_follows_messages_witness :
  exists this',
    instances (message_added (fun l => l ++ [failed_message]) sample_page) !! 5
      = Some this'
    /\ MessageCenterField.messageCount (MessageCenterField.state this') = 3.
Proof.
  refine (proj2 (proj1 (proj2 messageCount_follows_messages)
                   (fun l => l ++ [failed_message]) sample_page 5 sample_field
                   _ _)).
  - vm_compute. reflexivity.
  - apply (bool_decide_unpack _). vm_compute. exact I.
Defined.

(** C9 at work: mounting and unmounting the sample field, its tab changed in
    between, gives back the sample world. *)
Lemma mount_unmount_restores_listeners_witness :
  MessageCenterField.componentWillUnmount
    (MessageCenterField._changeActiveTab MessageCenterField.Problems
       sample_field)
    (MessageCenterField.componentDidMount sample_field sample_world)
  = sample_world.
Proof.
  refine (proj2 (proj2 (mount_unmount_restores_listeners sample_field
                          sample_world
                          [MessageCenterField.mkPartial
                             (Some MessageCenterField.Problems) None None]))
            _).
  apply (bool_decide_unpack _). vm_compute. exact I.
Defined.

(** * Further properties of the session helper *)

Section SessionTraces.

Import IModelSession.

Variable sv : Services.

(** X1: [create] only appends to the trace, at most three events (the two
    lookups and the log line), and none of them is a remote open: creating
    a session never opens a connection. *)
Theorem create_never_opens (d : IModelData.t) (tr : Trace) :
  exists evs,
    (create sv d tr).2 = tr ++ evs
    /\ length evs <= 3
    /\ remote_opens evs = 0
    /\ remote_opens (create sv d tr).2 = remote_opens tr.
Proof.
  assert (H : exists evs, (create sv d tr).2 = tr ++ evs
                          /\ length evs <= 3 /\ remote_opens evs = 0).
  { rewrite create_unfold. unfold query_trace.
    destruct (IModelData.useProjectName d); simpl;
      [destruct (getProject sv tr "*" (project_filter d)) as [p|e]; simpl|];
      try (destruct (IModelData.useName d); simpl;
           [destruct (iModels_get sv _ _ _) as [[[|first rest]|]|e']; simpl|]);
      rewrite <- ?app_assoc;
      (eexists; split; [reflexivity|simpl; split; [lia|reflexivity]]). }
  destruct H as (evs & Heq & Hlen & Hno). exists evs.
  repeat split; try assumption.
  rewrite Heq, remote_opens_app, Hno. lia.
Qed.

(** X2: when the settings give both ids ([useProjectName] and [useName]
    false), [create] calls no service and cannot fail: it logs its line and
    returns the session with the two ids of the settings. *)
Theorem create_by_id_is_offline (d : IModelData.t) (tr : Trace) :
  IModelData.useProjectName d = false ->
  IModelData.useName d = false ->
  create sv d tr
  = (Normal (new (IModelData.projectId d) (IModelData.id d)),
     tr ++ [ConsoleLog (using_iModel_line d)]).
Proof.
  intros Hp Hn. rewrite create_unfold. unfold query_trace.
  rewrite Hp, Hn. reflexivity.
Qed.

(** X3: [create] stops at the first failure.  When the project lookup
    rejects, the hub is not queried: the trace ends with the project
    lookup.  When the project is resolved and the hub query itself
    rejects, [create] throws the hub's error unchanged. *)
Theorem create_stops_at_first_failure (d : IModelData.t) (tr : Trace)
    (e : JsError) :
  (IModelData.useProjectName d = true ->
   getProject sv tr "*" (project_filter d) = Rejected e ->
   (create sv d tr).2 = tr ++ [GetProject "*" (project_filter d)])
  /\ (IModelData.useName d = true ->
      forall ctx,
        context_resolved sv d tr ctx ->
        iModels_get sv (query_trace d tr) ctx (IModelData.name d) = Rejected e ->
        create sv d tr
        = (Thrown e,
           query_trace d tr ++ [IModelsGet ctx (IModelData.name d)])).
Proof.
  split.
  - intros Hp He. rewrite create_unfold. unfold query_trace.
    rewrite Hp, He. reflexivity.
  - intros Hn ctx Hctx He. rewrite create_unfold.
    unfold context_resolved, query_trace in *.
    destruct (IModelData.useProjectName d).
    + destruct Hctx as (p & -> & ->). simpl. rewrite Hn, He. reflexivity.
    + subst ctx. simpl. rewrite Hn, He. reflexivity.
Qed.

(** X4: the line "Using iModel ..." is the last thing [create] does, and it
    does it only on success: [create] returns a session if and only if the
    trace it leaves ends with that line written by this call. *)
Theorem create_logs_iff_success (d : IModelData.t) (tr : Trace) :
  (exists s, (create sv d tr).1 = Normal s)
  <-> (exists evs,
         (create sv d tr).2
         = (tr ++ evs) ++ [ConsoleLog (using_iModel_line d)]).
Proof.
  rewrite create_unfold. unfold query_trace.
  destruct (IModelData.useProjectName d); simpl;
    [destruct (getProject sv tr "*" (project_filter d)) as [p|e]; simpl|];
    try (destruct (IModelData.useName d); simpl;
         [destruct (iModels_get sv _ _ _) as [[[|first rest]|]|e']; simpl|]);
    (split; [intros [s Hs]|intros [evs Hevs]]);
    try discriminate Hs;
    try (apply app_inj_tail in Hevs as [_ Hevs]; discriminate Hevs);
    try match goal with
        | |- exists evs, ((?t ++ [?a]) ++ [?b]) ++ [_] = _ =>
            exists [a; b]; rewrite <- !app_assoc; reflexivity
        | |- exists evs, (?t ++ [?a]) ++ [_] = _ => exists [a]; reflexivity
        | |- exists evs, ?t ++ [_] = _ =>
            exists []; rewrite app_nil_r; reflexivity
        end;
    eexists; reflexivity.
Qed.

End SessionTraces.
(** X2 at work: the session by id is created with no service at hand. *)
Lemma create_by_id_is_offline_witness :
  IModelSession.create registry_without_project data_by_id []
  = (Normal (IModelSession.new (Some "ctx-9") (Some "im-9")),
     [ConsoleLog
        "Using iModel { name:undefined, id:im-9, projectId:ctx-9, changesetId:undefined }"]).
Proof.
  exact (create_by_id_is_offline registry_without_project data_by_id []
           eq_refl eq_refl).
Defined.

(** X3 at work: the failed project lookup is the only call made, and the
    error of an unreachable hub comes through as it is. *)
Lemma create_stops_at_first_failure_witness :
  (IModelSession.create registry_without_project data_by_name []).2
    = [GetProject "*" "Name+eq+'Plant'"]
  /\ IModelSession.create hub_unreachable data_by_name []
     = (Thrown (Error "getaddrinfo ENOTFOUND"),
        [GetProject "*" "Name+eq+'Plant'";
         IModelsGet (Some "ctx-1") (Some "Bridge")]).
Proof.
  split.
  - exact (proj1 (create_stops_at_first_failure registry_without_project
                    data_by_name []
                    (Error "Could not find a project with the specified criteria"))
             eq_refl eq_refl).
  - refine (proj2 (create_stops_at_first_failure hub_unreachable data_by_name []
                     (Error "getaddrinfo ENOTFOUND"))
              eq_refl (Some "ctx-1") _ eq_refl).
    exists plant_project. split; reflexivity.
Defined.

Section SessionConnection.

Import IModelSession.

Variable sv : Services.


(** X6: [open] does not look at the cache.  Two receivers with the same
    identifiers in the same world get the same completion and leave the
    same trace, whatever connection either has cached: calling [open] on a
    session that is already connected connects again. *)
Theorem open_ignores_cache (o1 o2 : Obj) :
  contextId (this o1) = contextId (this o2) ->
  iModelId (this o1) = iModelId (this o2) ->
  world o1 = world o2 ->
  (open sv o1).1 = (open sv o2).1
  /\ world (open sv o1).2 = world (open sv o2).2.
Proof.
  intros Hc Hi Hw. rewrite !open_unfold. unfold attempt_trace.
  rewrite Hc, Hi, Hw.
  destruct (config_get sv (world o2) region_key) as [env|e0]; simpl; [|auto].
  destruct (remote_open sv _ _ _) as [conn|e1]; simpl; auto.
Qed.

(** X7: a rejected request costs nothing.  When reading the region is
    rejected, or the remote open is, [open] throws the wrapped error before
    it assigns [_iModel]: the receiver is exactly as it was, so a connection
    cached earlier survives a rejected re-open.  [getConnection] leaves the
    receiver as it was in the same circumstances, cached connection or
    not. *)
Theorem open_failure_keeps_receiver (o : Obj) (e : JsError) :
  config_get sv (world o) region_key = Rejected e
  \/ (exists env,
        config_get sv (world o) region_key = Resolved env
        /\ remote_open sv (attempt_trace o env)
             (contextId (this o)) (iModelId (this o)) = Rejected e) ->
  (open sv o).1
    = Thrown (Error ("Failed to open test iModel. Error: " +:+ message e))
  /\ this (open sv o).2 = this o
  /\ this (getConnection sv o).2 = this o.
Proof.
  intros Hrej.
  assert (Hopen : (open sv o).1
                  = Thrown (Error (open_failure_prefix +:+ message e))
                  /\ this (open sv o).2 = this o).
  { rewrite open_unfold.
    destruct Hrej as [He|(env & Henv & He)].
    - rewrite He. split; reflexivity.
    - rewrite Henv, He. split; reflexivity. }
  destruct Hopen as [Hthrow Hsame].
  split; [exact Hthrow|]. split; [exact Hsame|].
  rewrite getConnection_unfold.
  destruct (_iModel (this o)); [reflexivity|exact Hsame].
Qed.

(** X8: whatever goes wrong inside [open], the caller of [open] or
    [getConnection] only ever sees a plain [Error] whose message starts
    with "Failed to open test iModel. Error: "; the class of the original
    error is lost. *)
Theorem open_throws_only_wrapped_errors (o : Obj) (e : JsError) :
  (open sv o).1 = Thrown e \/ (getConnection sv o).1 = Thrown e ->
  error_name e = "Error"
  /\ starts_with "Failed to open test iModel. Error: " (message e) = true.
Proof.
  assert (Hopen : (open sv o).1 = Thrown e ->
            error_name e = "Error"
            /\ starts_with open_failure_prefix (message e) = true).
  { intros H. rewrite open_unfold in H.
    destruct (config_get sv (world o) region_key) as [env|e0]; simpl in H.
    - destruct (remote_open sv _ _ _) as [conn|e1]; simpl in H;
        [discriminate H|].
      injection H as <-.
      split; [reflexivity|exact (starts_with_app open_failure_prefix _)].
    - injection H as <-.
      split; [reflexivity|exact (starts_with_app open_failure_prefix _)]. }
  intros [H|H]; [exact (Hopen H)|].
  rewrite getConnection_unfold in H.
  destruct (_iModel (this o)); simpl in H; [discriminate H|exact (Hopen H)].
Qed.

(** X9: [getConnection] makes a remote open exactly when nothing is cached
    and the configured region could be read, and then exactly one; the
    count of remote opens in the trace grows accordingly. *)
Theorem getConnection_remote_open_count (o : Obj) :
  remote_opens (world (getConnection sv o).2)
  = remote_opens (world o)
    + match _iModel (this o), config_get sv (world o) region_key with
      | None, Resolved _ => 1
      | _, _ => 0
      end.
Proof.
  rewrite getConnection_unfold.
  destruct (_iModel (this o)) as [conn|]; simpl; [lia|].
  rewrite open_unfold. unfold attempt_trace.
  destruct (config_get sv (world o) region_key) as [env|e0]; simpl.
  - destruct (remote_open sv _ _ _) as [conn|e1]; simpl;
      rewrite !remote_opens_app, !remote_opens_single; simpl; lia.
  - rewrite remote_opens_app, remote_opens_single. simpl. lia.
Qed.

(** X10: [create] and [getConnection] compose.  On the session [create]
    returned, with the region readable, [getConnection] asks for the
    connection with the two identifiers [create] stored, once, and its
    completion is the answer to that request: the connection, or the
    wrapped error. *)
Theorem create_then_getConnection (d : IModelData.t) (tr tr' : Trace)
    (s : IModelSession.t) (env : string) :
  create sv d tr = (Normal s, tr') ->
  config_get sv tr' region_key = Resolved env ->
  let o := {| this := s; world := tr' |} in
  world (getConnection sv o).2
    = attempt_trace o env ++ [RemoteOpen (contextId s) (iModelId s)]
  /\ (getConnection sv o).1
     = match remote_open sv (attempt_trace o env) (contextId s) (iModelId s) with
       | Resolved conn => Normal (Some conn)
       | Rejected e =>
           Thrown (Error ("Failed to open test iModel. Error: " +:+ message e))
       end.
Proof.
  intros Hcreate Henv o.
  assert (Hnone : _iModel s = None).
  { revert Hcreate. rewrite create_unfold.
    destruct (IModelData.useProjectName d); simpl;
      [destruct (getProject sv tr "*" (project_filter d)) as [p|e]; simpl|];
      try (destruct (IModelData.useName d); simpl;
           [destruct (iModels_get sv _ _ _) as [[[|first rest]|]|e']; simpl|]);
      try discriminate; intros [= <- _]; reflexivity. }
  rewrite getConnection_unfold. subst o. simpl. rewrite Hnone, open_unfold.
  simpl. rewrite Henv.
  destruct (remote_open sv _ _ _) as [conn|e]; simpl; auto.
Qed.

End SessionConnection.


(** X6 at work: a session that already holds connection 3 connects again
    and now holds connection 7. *)
Lemma open_ignores_cache_witness :
  let connected :=
    {| IModelSession.this :=
         {| IModelSession.contextId := Some "ctx-9";
            IModelSession.iModelId := Some "im-9";
            IModelSession._iModel := Some 3 |};
       IModelSession.world := [] |} in
  (IModelSession.open hub_online connected).1 = Normal (Some 7).
Proof.
  intros connected.
  rewrite (proj1 (open_ignores_cache hub_online connected fresh_session
                    eq_refl eq_refl eq_refl)).
  reflexivity.
Defined.

(** X7 at work: the refused re-open leaves connection 3 in the cache. *)
Lemma open_failure_keeps_receiver_witness :
  let connected :=
    {| IModelSession.this :=
         {| IModelSession.contextId := Some "ctx-9";
            IModelSession.iModelId := Some "im-9";
            IModelSession._iModel := Some 3 |};
       IModelSession.world := [] |} in
  (IModelSession.open hub_offline connected).1
    = Thrown (Error "Failed to open test iModel. Error: connect ECONNREFUSED")
  /\ IModelSession.this (IModelSession.open hub_offline connected).2
     = IModelSession.this connected
  /\ IModelSession.this (IModelSession.getConnection hub_offline connected).2
     = IModelSession.this connected.
Proof.
  intros connected.
  apply (open_failure_keeps_receiver hub_offline connected
           (Error "connect ECONNREFUSED")).
  right. exists "0". split; reflexivity.
Defined.

(** X8 at work: the refused connection reaches the caller as a plain
    [Error] with the prefix. *)
Lemma open_throws_only_wrapped_errors_witness :
  error_name (Error "Failed to open test iModel. Error: connect ECONNREFUSED")
    = "Error"
  /\ starts_with "Failed to open test iModel. Error: "
       "Failed to open test iModel. Error: connect ECONNREFUSED" = true.
Proof.
  exact (open_throws_only_wrapped_errors hub_offline fresh_session
           (Error "Failed to open test iModel. Error: connect ECONNREFUSED")
           (or_introl eq_refl)).
Defined.

(** X10 at work: the session created by name is opened with the ids the
    lookups returned. *)
Lemma create_then_getConnection_witness :
  let o := {| IModelSession.this :=
                IModelSession.new (Some "ctx-1") (Some "im-1");
              IModelSession.world :=
                (IModelSession.create hub_online data_by_name []).2 |} in
  IModelSession.world (IModelSession.getConnection hub_online o).2
    = attempt_trace o "0" ++ [RemoteOpen (Some "ctx-1") (Some "im-1")]
  /\ (IModelSession.getConnection hub_online o).1 = Normal (Some 7).
Proof.
  exact (create_then_getConnection hub_online data_by_name [] _ _ "0"
           eq_refl eq_refl).
Defined.

(** * Further properties of the message list *)

Section MessageRows.

Import MessageCenterField.

Variable fw : Framework.

#[local] Instance toString_Inj : Inj (=) (=) toString.
Proof. intros n m. apply toString_inj. Qed.

(** The keys of the rows are, in order, among the indices of the list. *)
Lemma row_keys_sublist (this : MessageCenterField.t)
    (l : list NotifyMessageDetails) (k : nat) :
  key <$> omap id (imap (fun i => row_if_shown fw this (k + i)) l)
  `sublist_of` (toString <$> seq k (length l)).
Proof.
  revert k. induction l as [|d l IH]; intros k; simpl; [constructor|].
  rewrite (imap_ext ((fun i => row_if_shown fw this (k + i)) ∘ S)
             (fun i => row_if_shown fw this (S k + i)) l)
    by (intros i x _; simpl; f_equal; lia).
  rewrite Nat.add_0_r. unfold row_if_shown at 1.
  destruct (shown fw this d); simpl.
  - apply sublist_skip. exact (IH (S k)).
  - apply sublist_cons. exact (IH (S k)).
Qed.

(** There are at most as many rows as messages, and exactly as many on the
    AllMessages tab. *)
Lemma getMessages_row_count (this : MessageCenterField.t) (w : World) :
  length (getMessages fw this w).1 <= length (manager_array w)
  /\ (activeTab (state this) = AllMessages ->
      length (getMessages fw this w).1 = length (manager_array w)).
Proof.
  rewrite getMessages_unfold. simpl.
  pose proof (row_keys_sublist this (reverse (manager_array w)) 0) as Hsub.
  simpl in Hsub. split.
  - apply sublist_length in Hsub.
    rewrite !length_fmap, List.length_seq, length_reverse in Hsub. exact Hsub.
  - intros Htab.
    rewrite (imap_ext (row_if_shown fw this)
               (fun i d => Some (MessageCenterMessage_of fw d i))).
    + rewrite omap_imap_Some, length_imap, length_reverse. reflexivity.
    + intros i d _. unfold row_if_shown, shown.
      rewrite bool_decide_eq_true_2 by exact Htab. reflexivity.
Qed.

(** X11: the rows of [getMessages] carry pairwise distinct keys, and there
    are at most as many rows as messages, exactly as many on the
    AllMessages tab. *)
Theorem getMessages_keys_distinct (this : MessageCenterField.t) (w : World) :
  let rows := (getMessages fw this w).1 in
  let messages := read (MessageManager_messages w) w in
  NoDup (key <$> rows)
  /\ length rows <= length messages
  /\ (activeTab (state this) = AllMessages -> length rows = length messages).
Proof.
  cbv zeta. split; [|exact (getMessages_row_count this w)].
  rewrite getMessages_unfold. simpl.
  pose proof (row_keys_sublist this (reverse (manager_array w)) 0) as Hsub.
  simpl in Hsub. refine (sublist_NoDup _ _ _ Hsub).
  apply NoDup_fmap_2; [apply _|apply NoDup_seq].
Qed.

Lemma rows_sublist_all (this all : MessageCenterField.t)
    (l : list NotifyMessageDetails) (k : nat) :
  activeTab (state all) = AllMessages ->
  omap id (imap (fun i => row_if_shown fw this (k + i)) l)
  `sublist_of` omap id (imap (fun i => row_if_shown fw all (k + i)) l).
Proof.
  intros Hall. revert k. induction l as [|d l IH]; intros k; simpl;
    [constructor|].
  rewrite (imap_ext ((fun i => row_if_shown fw this (k + i)) ∘ S)
             (fun i => row_if_shown fw this (S k + i)) l)
    by (intros i x _; simpl; f_equal; lia).
  rewrite (imap_ext ((fun i => row_if_shown fw all (k + i)) ∘ S)
             (fun i => row_if_shown fw all (S k + i)) l)
    by (intros i x _; simpl; f_equal; lia).
  assert (Hrow : row_if_shown fw all (k + 0) d
                 = Some (MessageCenterMessage_of fw d (k + 0))).
  { unfold row_if_shown, shown.
    rewrite (bool_decide_eq_true_2 _ Hall). reflexivity. }
  rewrite Hrow. unfold row_if_shown at 1.
  destruct (shown fw this d); simpl.
  - apply sublist_skip. exact (IH (S k)).
  - apply sublist_cons. exact (IH (S k)).
Qed.

(** X12: switching tabs never renumbers or reorders.  Whatever tab is
    active, the rows shown are a subsequence of the rows of the AllMessages
    tab, each row identical (key included) to the one shown there. *)
Theorem getMessages_sublist_of_all (this : MessageCenterField.t) (w : World) :
  (getMessages fw this w).1
  `sublist_of` (getMessages fw (_changeActiveTab AllMessages this) w).1.
Proof.
  rewrite !getMessages_unfold. simpl.
  exact (rows_sublist_all this (_changeActiveTab AllMessages this)
           (reverse (manager_array w)) 0 eq_refl).
Qed.

Lemma getMessages_rows_depend_on_manager_array
    (this : MessageCenterField.t) (w1 w2 : World) :
  manager_array w1 = manager_array w2 ->
  (getMessages fw this w1).1 = (getMessages fw this w2).1.
Proof.
  intros Heq. rewrite !getMessages_unfold. simpl. rewrite Heq. reflexivity.
Qed.

Lemma getMessages_iter_manager_array (this : MessageCenterField.t)
    (n : nat) (w : World) :
  manager_array (Nat.iter n (fun w0 => (getMessages fw this w0).2) w)
  = manager_array w.
Proof.
  induction n as [|n IH]; [reflexivity|].
  rewrite Nat.iter_succ. cbv beta. rewrite getMessages_unfold. exact IH.
Qed.

(** X13: rendering is repeatable.  However often [getMessages] has run
    before, on the world those runs left it returns the rows of the first
    run: the reversal, made on a copy, does not add up from one rendering
    to the next. *)
Theorem getMessages_repeatable (this : MessageCenterField.t) (w : World)
    (n : nat) :
  (getMessages fw this
     (Nat.iter n (fun w0 => (getMessages fw this w0).2) w)).1
  = (getMessages fw this w).1.
Proof.
  apply getMessages_rows_depend_on_manager_array,
    getMessages_iter_manager_array.
Qed.

(** X14: no row is rendered exactly when no message qualifies: the list is
    empty, or the Problems tab is active and no message has priority Error
    or Fatal. *)
Theorem getMessages_empty_iff (this : MessageCenterField.t) (w : World) :
  (getMessages fw this w).1 = []
  <-> forall details,
        details ∈ read (MessageManager_messages w) w ->
        activeTab (state this) <> AllMessages
        /\ priority details <> OutputMessagePriority_Error fw
        /\ priority details <> OutputMessagePriority_Fatal fw.
Proof.
  unfold MessageManager_messages, read. split.
  - intros Hnil d Hd.
    assert (Hs : shown fw this d <> true).
    { intros Hs. apply elem_of_reverse in Hd.
      apply list_elem_of_lookup in Hd as [i Hi].
      assert (Hin : MessageCenterMessage_of fw d i ∈ (getMessages fw this w).1)
        by (apply getMessages_row; eauto).
      rewrite Hnil in Hin. exact (not_elem_of_nil _ Hin). }
    rewrite shown_spec in Hs. tauto.
  - intros Hall. apply elem_of_nil_inv. intros row Hrow.
    apply getMessages_row in Hrow as (i & d & Hd & Hs & _).
    apply shown_spec in Hs.
    assert (Hin : d ∈ manager_array w).
    { apply elem_of_reverse. apply list_elem_of_lookup. eauto. }
    destruct (Hall d Hin) as (H1 & H2 & H3). tauto.
Qed.

End MessageRows.

(** X11 and X12 at work on the busy world: three rows under three keys on
    the AllMessages tab, and the two problem rows on the Problems tab keep
    the keys "0" and "2". *)
Lemma getMessages_keys_distinct_witness :
  length (MessageCenterField.getMessages sample_framework busy_field
            busy_world).1 = 3.
Proof.
  exact (proj2 (proj2 (getMessages_keys_distinct sample_framework busy_field
                         busy_world)) eq_refl).
Defined.

Example getMessages_problem_keys :
  key <$> (MessageCenterField.getMessages sample_framework
             (MessageCenterField._changeActiveTab MessageCenterField.Problems
                busy_field) busy_world).1
  = ["0"; "2"].
Proof. reflexivity. Qed.

(** X14 at work: on the Problems tab a world holding only the successful
    save renders no row. *)
Lemma getMessages_empty_iff_witness :
  (MessageCenterField.getMessages sample_framework
     (MessageCenterField._changeActiveTab MessageCenterField.Problems
        sample_field)
     {| manager_array := [saved_message];
        allocated := [];
        onMessageAddedEvent := [] |}).1 = [].
Proof.
  apply (proj2 (getMessages_empty_iff sample_framework _ _)).
  intros details Hin. apply list_elem_of_singleton in Hin. subst details.
  repeat split; discriminate.
Defined.

(** * Further properties of the component's handlers and of [render] *)

Section Handlers.

Import MessageCenterField.
Import MessageCenterRender.

(** X15: a click outside the popup closes the panel only when it should.
    With the callback in the props, [_handleOutsideClick] asks to close
    (invokes the callback with [null]) exactly when the indicator is
    mounted, the event hit a DOM node, and that node is not inside the
    indicator; in every other case it invokes nothing. *)
Theorem handleOutsideClick_closes_iff (contains : nat -> nat -> bool)
    (indicator : option nat) (this : MessageCenterField.t)
    (hit : EventTarget) (callback : nat) :
  onOpenWidget (props this) = Some callback ->
  (_handleOutsideClick contains indicator this hit = [Invoke callback None]
   <-> exists node inner,
         indicator = Some node /\ hit = TargetNode inner
         /\ contains node inner = false)
  /\ (_handleOutsideClick contains indicator this hit = []
      \/ _handleOutsideClick contains indicator this hit
         = [Invoke callback None]).
Proof.
  intros Hcb.
  unfold _handleOutsideClick, _handleClose, setOpenWidget. rewrite Hcb.
  destruct indicator as [node|]; [destruct hit as [inner|]|].
  - destruct (contains node inner) eqn:Hc; split; auto.
    + split; [discriminate|].
      intros (n & i & [= <-] & [= <-] & Hf). congruence.
    + split; [eauto 6|reflexivity].
  - split; [|auto]. split; [discriminate|].
    intros (n & i & _ & Ht & _). discriminate Ht.
  - split; [|auto]. split; [discriminate|].
    intros (n & i & Hi & _). discriminate Hi.
Qed.

(** X16: a message-added event changes nothing but the count.  The set of
    instances, each instance's props, active tab, popup target, class name
    and listener, the listeners of the event and the allocated arrays are
    as before; and an instance whose listener is not registered (it is not
    mounted) is not touched at all. *)
Theorem message_added_changes_only_count
    (update : list NotifyMessageDetails -> list NotifyMessageDetails)
    (pg : Page) (h : Listener) :
  let pg' := message_added update pg in
  match instances pg !! h with
  | None => instances pg' !! h = None
  | Some this =>
      exists this',
        instances pg' !! h = Some this'
        /\ props this' = props this
        /\ activeTab (state this') = activeTab (state this)
        /\ target (state this') = target (state this)
        /\ _className this' = _className this
        /\ _handleMessageAddedEvent this' = _handleMessageAddedEvent this
        /\ (h ∉ onMessageAddedEvent (page_world pg) -> this' = this)
  end
  /\ onMessageAddedEvent (page_world pg') = onMessageAddedEvent (page_world pg)
  /\ allocated (page_world pg') = allocated (page_world pg).
Proof.
  simpl. split; [|split; reflexivity].
  unfold raiseEvent. simpl.
  rewrite foldl_alter_lookup by apply handleMessageAddedEvent_twice.
  destruct (instances pg !! h) as [this|]; simpl; [|reflexivity].
  destruct (decide (h ∈ onMessageAddedEvent (page_world pg))) as [Hin|Hnin].
  - eexists. split; [reflexivity|]. repeat split. intros Hnin. contradiction.
  - eexists. split; [reflexivity|]. repeat split.
Qed.

Lemma messages_added_keeps_choices
    (updates : list (list NotifyMessageDetails -> list NotifyMessageDetails))
    (pg : Page) (h : Listener) (this : MessageCenterField.t) :
  h ∈ onMessageAddedEvent (page_world pg) ->
  instances pg !! h = Some this ->
  exists this',
    instances (messages_added updates pg) !! h = Some this'
    /\ activeTab (state this') = activeTab (state this)
    /\ target (state this') = target (state this).
Proof.
  revert pg this. induction updates as [|u updates IH]; intros pg this Hin Hthis;
    simpl; [eauto|].
  destruct (IH (message_added u pg)
              (handleMessageAddedEvent
                 (page_world (message_added u pg)) this))
    as (this' & Hthis' & Htab & Htarget).
  - exact Hin.
  - apply raiseEvent_registered; [exact Hthis|exact Hin].
  - exists this'. split; [exact Hthis'|]. split; [exact Htab|exact Htarget].
Qed.

(** X17: what the user chose survives the events, and the count keeps
    following.  When a mounted instance in step with the message list has
    its tab changed and its popup target set, then after any sequence of
    message-added events it still shows that tab and that target, and its
    count is the length of the list. *)
Theorem ui_choices_survive_events (pg : Page) (h : Listener)
    (this : MessageCenterField.t) (tab : MessageCenterActiveTab)
    (targetRef : option TargetRef) (node : option nat)
    (updates : list (list NotifyMessageDetails -> list NotifyMessageDetails)) :
  in_sync h pg ->
  instances pg !! h = Some this ->
  let chosen := (_handleTargetRef targetRef node (_changeActiveTab tab this)).2 in
  let pg' :=
    messages_added updates
      {| page_world := page_world pg;
         instances := <[h := chosen]> (instances pg) |} in
  in_sync h pg'
  /\ exists this',
       instances pg' !! h = Some this'
       /\ activeTab (state this') = tab
       /\ target (state this') = node.
Proof.
  intros (Hin & this0 & Hthis0 & Hcount) Hthis chosen pg'.
  rewrite Hthis in Hthis0. injection Hthis0 as <-.
  split.
  - apply messages_added_in_sync. split; [exact Hin|].
    exists chosen. split; [apply lookup_insert_eq|exact Hcount].
  - destruct (messages_added_keeps_choices updates
                {| page_world := page_world pg;
                   instances := <[h := chosen]> (instances pg) |}
                h chosen Hin (lookup_insert_eq _ _ _))
      as (this' & Hthis' & Htab & Htarget).
    exists this'. split; [exact Hthis'|]. split; [exact Htab|exact Htarget].
Qed.

(** The parts of [render] that do not depend on the rows. *)
Lemma render_unfold (fw : Framework) (translate : string -> string)
    (common : CommonProps) (this : MessageCenterField.t) (w : World) :
  render fw translate common this w
  = ({| footer_div :=
          {| div_className := className common;
             div_style := style common;
             title := toString (messageCount (state this)) +:+ " "
                        +:+ translate "messageCenter.messages";
             div_children :=
               {| indicatorRef := member_indicator;
                  indicator_isInFooterMode := isInFooterMode (props this);
                  label := if isInFooterMode (props this)
                           then Some (translate "messageCenter.messages")
                           else None;
                  indicator_onClick := member_handleMessageIndicatorClick;
                  indicator_targetRef := member_handleTargetRef;
                  indicator_children :=
                    toString (messageCount (state this)) |} |};
        footer_popup :=
          {| popup_isOpen := isOpen this;
             onClose := member_handleClose;
             onOutsideClick := member_handleOutsideClick;
             popup_target := target (state this);
             popup_children :=
               {| prompt := translate "messageCenter.prompt";
                  tabs :=
                    [ {| isActive :=
                           bool_decide (activeTab (state this) = AllMessages);
                         tab_onClick := AllMessages;
                         tab_children := translate "messageCenter.all" |};
                      {| isActive :=
                           bool_decide (activeTab (state this) = Problems);
                         tab_onClick := Problems;
                         tab_children := translate "messageCenter.errors" |} ];
                  dialog_title := translate "messageCenter.messages";
                  dialog_children := (getMessages fw this w).1 |} |} |},
     (getMessages fw this w).2).
Proof.
  unfold render. destruct (getMessages fw this w) as [rows w']. reflexivity.
Qed.

(** X18: in every rendering there are two tabs, AllMessages then Problems,
    and exactly the tab of the state is active; after the click of a tab
    (which passes its own tab to [_changeActiveTab]) the next rendering
    shows that tab as the active one. *)
Theorem render_one_tab_active (fw : Framework) (translate : string -> string)
    (common : CommonProps) (this : MessageCenterField.t) (w : World) :
  let shown_tabs (f : MessageCenterField.t) :=
    tabs (popup_children (footer_popup (render fw translate common f w).1)) in
  tab_onClick <$> shown_tabs this = [AllMessages; Problems]
  /\ tab_onClick <$> filter (fun t => isActive t = true) (shown_tabs this)
     = [activeTab (state this)]
  /\ forall clicked,
       clicked ∈ shown_tabs this ->
       tab_onClick
         <$> filter (fun t => isActive t = true)
               (shown_tabs (_changeActiveTab (tab_onClick clicked) this))
       = [tab_onClick clicked].
Proof.
  cbv zeta.
  assert (Hactive : forall f,
            tab_onClick
              <$> filter (fun t => isActive t = true)
                    (tabs (popup_children
                             (footer_popup (render fw translate common f w).1)))
            = [activeTab (state f)]).
  { intros f. rewrite render_unfold. cbn [fst footer_popup popup_children tabs].
    destruct (activeTab (state f)); reflexivity. }
  split; [rewrite render_unfold; reflexivity|].
  split; [apply Hactive|].
  intros clicked _. rewrite Hactive. reflexivity.
Qed.

(** X19: the number in the indicator and the list agree.  When the count
    of the state is the length of the message list, the indicator shows
    that length in decimal, the tooltip is that number followed by the
    title, the dialog lists at most that many rows, and on the AllMessages
    tab exactly that many. *)
Theorem render_count_matches_rows (fw : Framework)
    (translate : string -> string) (common : CommonProps)
    (this : MessageCenterField.t) (w : World) :
  messageCount (state this) = length (read (MessageManager_messages w) w) ->
  let view := (render fw translate common this w).1 in
  let rows := dialog_children (popup_children (footer_popup view)) in
  indicator_children (div_children (footer_div view))
    = toString (length (read (MessageManager_messages w) w))
  /\ title (footer_div view)
     = indicator_children (div_children (footer_div view)) +:+ " "
         +:+ dialog_title (popup_children (footer_popup view))
  /\ length rows <= messageCount (state this)
  /\ (activeTab (state this) = AllMessages ->
      length rows = messageCount (state this)).
Proof.
  intros Hsync. cbv zeta. rewrite render_unfold.
  cbn [fst footer_div footer_popup popup_children div_children
       indicator_children title dialog_title dialog_children].
  rewrite Hsync.
  destruct (getMessages_row_count fw this w) as (Hle & Heq). auto.
Qed.

(** X20: setting the popup target changes nothing else on screen.
    [_handleTargetRef] hands the target to the ref of the props in the way
    that ref asks for (a callback ref is called with it, a ref object gets
    it as [current], no ref gets nothing) and stores it in the state; the
    next rendering differs from the previous one only in the target of the
    popup, which is the new target: tooltip, count, tabs and rows are the
    same. *)
Theorem handleTargetRef_moves_only_the_popup (fw : Framework)
    (translate : string -> string) (common : CommonProps)
    (this : MessageCenterField.t) (w : World)
    (targetRef : option TargetRef) (node : option nat) :
  let view := (render fw translate common this w).1 in
  let after := _handleTargetRef targetRef node this in
  let view' := (render fw translate common after.2 w).1 in
  after.1 = match targetRef with
            | Some (RefCallback callback) => [CallRef callback node]
            | Some (RefObject ref) => [AssignCurrent ref node]
            | None => []
            end
  /\ target (state after.2) = node
  /\ footer_div view' = footer_div view
  /\ footer_popup view'
     = {| popup_isOpen := popup_isOpen (footer_popup view);
          onClose := onClose (footer_popup view);
          onOutsideClick := onOutsideClick (footer_popup view);
          popup_target := node;
          popup_children := popup_children (footer_popup view) |}.
Proof.
  cbv zeta. rewrite !render_unfold. cbn [fst snd footer_div footer_popup].
  rewrite !getMessages_unfold.
  split; [reflexivity|]. split; [reflexivity|]. split; reflexivity.
Qed.

(** X21: a click on the indicator flips the popup.  With the callback in
    the props and the parent rendering the widget it was asked for, the
    popup of the next rendering is open exactly when the popup of this one
    is closed, and the indicator, tooltip, tabs and rows are as before. *)
Theorem indicator_click_flips_popup (fw : Framework)
    (translate : string -> string) (common : CommonProps)
    (this : MessageCenterField.t) (w : World) (callback : nat)
    (request : option string) :
  _handleMessageIndicatorClick this = [Invoke callback request] ->
  let view := (render fw translate common this w).1 in
  let view' :=
    (render fw translate common (with_openWidget this request) w).1 in
  popup_isOpen (footer_popup view') = negb (popup_isOpen (footer_popup view))
  /\ footer_div view' = footer_div view
  /\ popup_children (footer_popup view') = popup_children (footer_popup view).
Proof.
  intros Hclick. cbv zeta. rewrite !render_unfold.
  cbn [fst footer_div footer_popup popup_isOpen popup_children].
  rewrite !getMessages_unfold. split; [|split; reflexivity].
  revert Hclick. unfold _handleMessageIndicatorClick, setOpenWidget.
  destruct (onOpenWidget (props this)) as [cb|];
    [|destruct (isOpen this); discriminate].
  destruct (isOpen this) eqn:Hopen; intros [= _ <-]; simpl.
  - reflexivity.
  - unfold isOpen. simpl. apply bool_decide_eq_true_2. reflexivity.
Qed.

Lemma messages_added_listeners
    (updates : list (list NotifyMessageDetails -> list NotifyMessageDetails))
    (pg : Page) :
  onMessageAddedEvent (page_world (messages_added updates pg))
  = onMessageAddedEvent (page_world pg).
Proof.
  revert pg. induction updates as [|u updates IH]; intros pg; simpl;
    [reflexivity|].
  rewrite IH. reflexivity.
Qed.

Lemma messages_added_unregistered
    (updates : list (list NotifyMessageDetails -> list NotifyMessageDetails))
    (pg : Page) (h : Listener) :
  h ∉ onMessageAddedEvent (page_world pg) ->
  instances (messages_added updates pg) !! h = instances pg !! h.
Proof.
  revert pg. induction updates as [|u updates IH]; intros pg Hnin; simpl;
    [reflexivity|].
  rewrite IH by exact Hnin. unfold message_added, raiseEvent. simpl.
  rewrite foldl_alter_lookup by apply handleMessageAddedEvent_twice.
  rewrite decide_False by exact Hnin.
  destruct (instances pg !! h); reflexivity.
Qed.

Lemma messages_added_keeps_handler
    (updates : list (list NotifyMessageDetails -> list NotifyMessageDetails))
    (pg : Page) (h : Listener) (this : MessageCenterField.t) :
  instances pg !! h = Some this ->
  exists this',
    instances (messages_added updates pg) !! h = Some this'
    /\ _handleMessageAddedEvent this' = _handleMessageAddedEvent this.
Proof.
  revert pg this. induction updates as [|u updates IH]; intros pg this Hthis;
    simpl; [eauto|].
  assert (Hstep : exists this1,
            instances (message_added u pg) !! h = Some this1
            /\ _handleMessageAddedEvent this1 = _handleMessageAddedEvent this).
  { unfold message_added, raiseEvent. simpl.
    rewrite foldl_alter_lookup by apply handleMessageAddedEvent_twice.
    rewrite Hthis. simpl. eexists. split; [reflexivity|].
    destruct (decide _); reflexivity. }
  destruct Hstep as (this1 & Hthis1 & Hh1).
  destruct (IH _ _ Hthis1) as (this' & Hthis' & Hh').
  exists this'. split; [exact Hthis'|]. congruence.
Qed.

(** X22: an unmounted field hears nothing more.  A field is mounted with a
    listener of its own, receives events, and is unmounted: the listeners
    of the event are then those from before the mount, and whatever
    messages are added afterwards, the instance stays exactly as the
    unmount left it. *)
Theorem unmounted_field_ignores_events (p : MessageCenterFieldProps)
    (className : string) (h : Listener) (pg : Page)
    (before after : list (list NotifyMessageDetails
                          -> list NotifyMessageDetails)) :
  h ∉ onMessageAddedEvent (page_world pg) ->
  let pg2 := messages_added before (mount p className h pg) in
  exists this,
    instances pg2 !! h = Some this
    /\ let pg3 := {| page_world := componentWillUnmount this (page_world pg2);
                     instances := instances pg2 |} in
       onMessageAddedEvent (page_world pg3)
       = onMessageAddedEvent (page_world pg)
       /\ instances (messages_added after pg3) !! h = Some this.
Proof.
  intros Hfresh pg2.
  destruct (messages_added_keeps_handler before (mount p className h pg) h
              (new (page_world pg) p className h))
    as (this & Hthis & Hh); [apply lookup_insert_eq|].
  simpl in Hh. exists this. split; [exact Hthis|]. cbv zeta.
  assert (Hls : onMessageAddedEvent (componentWillUnmount this (page_world pg2))
                = onMessageAddedEvent (page_world pg)).
  { unfold componentWillUnmount. simpl. rewrite Hh. subst pg2.
    rewrite messages_added_listeners. simpl.
    apply removeListener_added_fresh. exact Hfresh. }
  split; [exact Hls|].
  rewrite messages_added_unregistered; [exact Hthis|].
  cbn [page_world]. rewrite Hls. exact Hfresh.
Qed.

End Handlers.

(** X15 at work: with the indicator at node 4, a click on node 2 closes the
    panel and a click on node 6, inside the indicator, does not. *)
Lemma handleOutsideClick_closes_iff_witness :
  MessageCenterRender._handleOutsideClick sample_contains (Some 4)
    sample_field (TargetNode 2) = [Invoke 1 None]
  /\ MessageCenterRender._handleOutsideClick sample_contains (Some 4)
       sample_field (TargetNode 6) <> [Invoke 1 None].
Proof.
  split.
  - apply (proj1 (handleOutsideClick_closes_iff sample_contains (Some 4)
                    sample_field (TargetNode 2) 1 eq_refl)).
    exists 4, 2. repeat split; reflexivity.
  - intros Hclose.
    apply (proj1 (handleOutsideClick_closes_iff sample_contains (Some 4)
                    sample_field (TargetNode 6) 1 eq_refl)) in Hclose.
    destruct Hclose as (node & inner & [= <-] & [= <-] & Hc).
    discriminate Hc.
Defined.

(** X16 at work: an instance that is not mounted keeps its stale count when
    a message arrives. *)
Lemma message_added_changes_only_count_witness :
  instances
    (message_added (fun l => l ++ [failed_message])
       {| page_world := sample_world;
          instances := {[ 5 := sample_field ]} |}) !! 5
  = Some sample_field.
Proof.
  destruct (proj1 (message_added_changes_only_count
                     (fun l => l ++ [failed_message])
                     {| page_world := sample_world;
                        instances := {[ 5 := sample_field ]} |} 5))
    as (this' & Hthis' & _ & _ & _ & _ & _ & Hsame).
  refine (eq_trans Hthis' (f_equal Some (Hsame _))).
  apply (bool_decide_unpack _). vm_compute. exact I.
Defined.

(** X17 at work: the Problems tab chosen on the sample page is still the
    active one after two messages arrived, and the count is four. *)
Lemma ui_choices_survive_events_witness :
  let pg' :=
    messages_added [fun l => l ++ [failed_message]; fun l => l ++ [saved_message]]
      {| page_world := page_world sample_page;
         instances :=
           <[5 := (MessageCenterRender._handleTargetRef None (Some 9)
                     (MessageCenterField._changeActiveTab
                        MessageCenterField.Problems sample_field)).2]>
             (instances sample_page) |} in
  in_sync 5 pg'
  /\ exists this',
       instances pg' !! 5 = Some this'
       /\ MessageCenterField.activeTab (MessageCenterField.state this')
          = MessageCenterField.Problems
       /\ MessageCenterField.target (MessageCenterField.state this') = Some 9.
Proof.
  refine (ui_choices_survive_events sample_page 5 sample_field
            MessageCenterField.Problems None (Some 9)
            [fun l => l ++ [failed_message]; fun l => l ++ [saved_message]]
            _ _).
  - exact (mount_in_sync sample_props "MessageCenterField" 5
             {| page_world := sample_world; instances := ∅ |}).
  - vm_compute. reflexivity.
Defined.

(** X18 at work: clicking the second tab of the sample field makes Problems
    the active tab. *)
Lemma render_one_tab_active_witness :
  MessageCenterRender.tab_onClick
    <$> filter (fun t => MessageCenterRender.isActive t = true)
          (MessageCenterRender.tabs
             (MessageCenterRender.popup_children
                (MessageCenterRender.footer_popup
                   (MessageCenterRender.render sample_framework
                      sample_translate sample_common
                      (MessageCenterField._changeActiveTab
                         MessageCenterField.Problems sample_field)
                      sample_world).1)))
  = [MessageCenterField.Problems].
Proof.
  refine (proj2 (proj2 (render_one_tab_active sample_framework sample_translate
                          sample_common sample_field sample_world))
            {| MessageCenterRender.isActive := false;
               MessageCenterRender.tab_onClick := MessageCenterField.Problems;
               MessageCenterRender.tab_children := "messageCenter.errors" |}
            _).
  apply elem_of_cons. right. apply list_elem_of_singleton. reflexivity.
Defined.

(** X19 at work: the busy field shows "3" and lists three rows. *)
Lemma render_count_matches_rows_witness :
  let view := (MessageCenterRender.render sample_framework sample_translate
                 sample_common busy_field busy_world).1 in
  MessageCenterRender.indicator_children
    (MessageCenterRender.div_children (MessageCenterRender.footer_div view))
  = "3"
  /\ MessageCenterRender.title (MessageCenterRender.footer_div view)
     = "3 Message(s):"
  /\ length (MessageCenterRender.dialog_children
               (MessageCenterRender.popup_children
                  (MessageCenterRender.footer_popup view))) = 3.
Proof.
  destruct (render_count_matches_rows sample_framework sample_translate
              sample_common busy_field busy_world eq_refl)
    as (Hcount & Htitle & _ & Hrows).
  split; [exact Hcount|split; [exact Htitle|exact (Hrows eq_refl)]].
Defined.

(** X21 at work: the click on the closed sample field opens the popup. *)
Lemma indicator_click_flips_popup_witness :
  MessageCenterRender.popup_isOpen
    (MessageCenterRender.footer_popup
       (MessageCenterRender.render sample_framework sample_translate
          sample_common
          (MessageCenterField.with_openWidget sample_field
             (Some "MessageCenterField"))
          sample_world).1)
  = true.
Proof.
  exact (proj1 (indicator_click_flips_popup sample_framework sample_translate
                  sample_common sample_field sample_world 1
                  (Some "MessageCenterField") eq_refl)).
Defined.

(** X22 at work: the sample field, mounted beside listener 3, counts the
    third message, is unmounted, and does not count the fourth. *)
Lemma unmounted_field_ignores_events_witness :
  exists this,
    MessageCenterField.messageCount (MessageCenterField.state this) = 3
    /\ instances
         (messages_added [fun l => l ++ [saved_message]]
            {| page_world :=
                 MessageCenterField.componentWillUnmount this
                   (page_world
                      (messages_added [fun l => l ++ [failed_message]]
                         sample_page));
               instances :=
                 instances
                   (messages_added [fun l => l ++ [failed_message]]
                      sample_page) |}) !! 5
       = Some this.
Proof.
  destruct (unmounted_field_ignores_events sample_props "MessageCenterField" 5
              {| page_world := sample_world; instances := ∅ |}
              [fun l => l ++ [failed_message]]
              [fun l => l ++ [saved_message]])
    as (this & Hthis & _ & Hafter).
  - apply (bool_decide_unpack _). vm_compute. exact I.
  - exists this. split; [|exact Hafter].
    vm_compute in Hthis. injection Hthis as <-. reflexivity.
Defined.

(** X13 at work, by contrast: reversing the manager's own array would show
    the second rendering in the opposite order. *)
Example getMessages_without_copy_not_repeatable :
  key <$> (MessageCenterField.getMessages sample_framework sample_field
             (MessageCenterField.getMessages sample_framework sample_field
                sample_world).2).1
  = key <$> (MessageCenterField.getMessages sample_framework sample_field
               sample_world).1
  /\ (MessageCenterField.getMessages_without_copy sample_framework sample_field
        (MessageCenterField.getMessages_without_copy sample_framework
           sample_field sample_world).2).1
     <> (MessageCenterField.getMessages_without_copy sample_framework
           sample_field sample_world).1.
Proof. split; [reflexivity|discriminate]. Qed.

(** X20 at work: a callback ref is called with node 9, a ref object gets
    node 9 as its current value, and the popup hangs on node 9. *)
Lemma handleTargetRef_moves_only_the_popup_witness :
  (MessageCenterRender._handleTargetRef (Some (RefCallback 2)) (Some 9)
     sample_field).1 = [CallRef 2 (Some 9)]
  /\ (MessageCenterRender._handleTargetRef (Some (RefObject 4)) (Some 9)
        sample_field).1 = [AssignCurrent 4 (Some 9)]
  /\ MessageCenterRender.popup_target
       (MessageCenterRender.footer_popup
          (MessageCenterRender.render sample_framework sample_translate
             sample_common
             (MessageCenterRender._handleTargetRef (Some (RefObject 4))
                (Some 9) sample_field).2
             sample_world).1)
     = Some 9.
Proof.
  split; [|split].
  - exact (proj1 (handleTargetRef_moves_only_the_popup sample_framework
                    sample_translate sample_common sample_field sample_world
                    (Some (RefCallback 2)) (Some 9))).
  - exact (proj1 (handleTargetRef_moves_only_the_popup sample_framework
                    sample_translate sample_common sample_field sample_world
                    (Some (RefObject 4)) (Some 9))).
  - exact (f_equal MessageCenterRender.popup_target
             (proj2 (proj2 (proj2
                (handleTargetRef_moves_only_the_popup sample_framework
                   sample_translate sample_common sample_field sample_world
                   (Some (RefObject 4)) (Some 9)))))).
Defined.
